(** * The [zephyr] Sphinx domain: code-sample registry, cross-reference
      resolution and listings

    A shallow embedding of [doc/_extensions/zephyr/domain.py].

    Python values are modelled as follows.
    - [str] is [string]; a string is read as the UTF-8 bytes of the Python
      text, on which the lexicographic byte order, [startswith] and the
      search for ['/'] agree with Python's code-point versions.
    - a [dict] is an association list in insertion order (Python dicts
      iterate in insertion order, and the listings iterate over
      [.values()]); a dict never holds a key twice, which is the
      well-formedness predicate [PyDict.wf].
    - the code-sample dict with its five fixed keys is a record.
    - statements that can raise ([d[k]], [l[0]]) run in a small
      state-and-exception monad.

    Covered: [ZephyrDomain] (all its methods), the three directives and
    the patched [doxygengroup] directive,
    [create_code_sample_definition_list], the two post-transforms and
    [ConvertCodeSampleNode.convert_node].  Left out: the calls to [print],
    [ConvertCodeSampleNode.apply] and [setup].

    Three built-ins are modelled on a part of their domain, and the
    statements that depend on them say so in a hypothesis:
    - [str.casefold] and [str.split] on ASCII text ([is_ascii]);
    - the reStructuredText parser not at all: what [nested_parse] puts
      into the description node is not used by any statement, which speak
      of the node the directive built. *)

From Stdlib Require Import List String Ascii Bool Arith ZArith NArith Lia.
From Stdlib Require Import Permutation Sorted.
Import ListNotations.

Open Scope string_scope.
Open Scope list_scope.

Set Implicit Arguments.

(* ================================================================== *)
(** ** Python built-ins used by the extension *)
(* ================================================================== *)

Module PyStr.

(** [str.casefold] on one character.  On ASCII text case folding is
    lower-casing of ['A'..'Z'], which is what this function does; it
    leaves the bytes of other characters as they are, which is not what
    Python does with letters outside ASCII.  Statements about the order
    of names therefore assume ASCII names. *)
Definition casefold_char (c : ascii) : ascii :=
  let n := nat_of_ascii c in
  if Nat.leb 65 n && Nat.leb n 90 then ascii_of_nat (n + 32) else c.

Fixpoint casefold (s : string) : string :=
  match s with
  | EmptyString => EmptyString
  | String c r => String (casefold_char c) (casefold r)
  end.

(** [str.isspace] on one ASCII character: TAB, LF, VT, FF, CR, the
    separators FS, GS, RS, US, and the space.  Python also splits on the
    white space outside ASCII (U+00A0, U+0085, U+3000, ...), which this
    function does not see.  Statements about the result of [split]
    therefore assume an ASCII argument. *)
Definition isspace (c : ascii) : bool :=
  let n := nat_of_ascii c in
  (Nat.leb 9 n && Nat.leb n 13) || (Nat.leb 28 n && Nat.leb n 32).

(** [s.split()] with no argument: the maximal runs of non-space
    characters, in order; [word] is the run being read. *)
Fixpoint split_from (s word : string) : list string :=
  match s with
  | EmptyString => if (word =? "") then [] else [word]
  | String c r =>
      if isspace c
      then (if (word =? "") then split_from r "" else word :: split_from r "")
      else split_from r (word ++ String c "")%string
  end.

Definition split (s : string) : list string := split_from s "".

(** [s.startswith(p)]. *)
Definition startswith (s p : string) : bool := String.prefix p s.

(** [s.rfind(c)] for a single character: the highest index, or [-1]. *)
Fixpoint rfind_from (c : ascii) (s : string) (i found : Z) : Z :=
  match s with
  | EmptyString => found
  | String a r => rfind_from c r (i + 1) (if Ascii.eqb a c then i else found)
  end.

Definition rfind (s : string) (c : ascii) : Z := rfind_from c s 0 (-1).

(** [s[:i]] for [0 <= i]. *)
Definition slice_to (s : string) (i : Z) : string :=
  String.substring 0 (Z.to_nat i) s.

(** [c * n]. *)
Fixpoint repeat_char (c : ascii) (n : nat) : string :=
  match n with
  | O => EmptyString
  | S k => String c (repeat_char c k)
  end.

(** [s.rstrip(c)] for a single character. *)
Fixpoint rstrip (s : string) (c : ascii) : string :=
  match s with
  | EmptyString => EmptyString
  | String a r =>
      match rstrip r c with
      | EmptyString => if Ascii.eqb a c then EmptyString else String a EmptyString
      | r' => String a r'
      end
  end.

(** [sep.join(l)]. *)
Fixpoint join (sep : string) (l : list string) : string :=
  match l with
  | [] => ""
  | [x] => x
  | x :: r => (x ++ sep ++ join sep r)%string
  end.

End PyStr.

Module posixpath.

Definition sep : ascii := "/"%char.

(** [os.path.dirname]:
<<
    i = p.rfind(sep) + 1
    head = p[:i]
    if head and head != sep*len(head):
        head = head.rstrip(sep)
    return head
>> *)
Definition dirname (p : string) : string :=
  let i := (PyStr.rfind p sep + 1)%Z in
  let head := PyStr.slice_to p i in
  if negb (head =? "") && negb (head =? PyStr.repeat_char sep (String.length head))
  then PyStr.rstrip head sep
  else head.

End posixpath.

(** Exceptions the modelled statements can raise. *)
Inductive exception : Type :=
| KeyError (key : string)
| IndexError.

Inductive result (A : Type) : Type :=
| Ok (a : A)
| Raise (e : exception).

Arguments Ok {A} a.
Arguments Raise {A} e.

Module PyDict.
Section Dict.

Variable V : Type.

(** Items in insertion order. *)
Definition dict : Type := list (string * V).

Definition empty : dict := [].

Definition items (d : dict) : list (string * V) := d.
Definition keys (d : dict) : list string := map fst d.
Definition values (d : dict) : list V := map snd d.
Definition len (d : dict) : nat := List.length d.

(** [d.get(k)]; [None] is Python's [None]. *)
Fixpoint get (d : dict) (k : string) : option V :=
  match d with
  | [] => None
  | (k', v) :: r => if (k' =? k) then Some v else get r k
  end.

(** [k in d]. *)
Definition contains (d : dict) (k : string) : bool :=
  match get d k with Some _ => true | None => false end.

(** [d[k]]. *)
Definition getitem (d : dict) (k : string) : result V :=
  match get d k with Some v => Ok v | None => Raise (KeyError k) end.

(** [d[k] = v]: an existing key keeps its position, a new key goes last. *)
Fixpoint setitem (d : dict) (k : string) (v : V) : dict :=
  match d with
  | [] => [(k, v)]
  | (k', v') :: r =>
      if (k' =? k) then (k', v) :: r else (k', v') :: setitem r k v
  end.

(** [d.update(other)]: every item of [other], in its order, is stored. *)
Definition update (d other : dict) : dict :=
  fold_left (fun acc kv => setitem acc (fst kv) (snd kv)) (items other) d.

(** [{k: v for k, v in d.items() if p(k, v)}]; the keys of [d] are
    distinct, so no item stored replaces another. *)
Definition comprehension_if (p : string -> V -> bool) (d : dict) : dict :=
  filter (fun kv => p (fst kv) (snd kv)) (items d).

(** No key occurs twice. *)
Definition wf (d : dict) : Prop := NoDup (keys d).

(** [d1 == d2]: the same keys with the same values, whatever the order. *)
Definition eq (d1 d2 : dict) : Prop := forall k, get d1 k = get d2 k.

(** No key of [d1] is a key of [d2]. *)
Definition disjoint (d1 d2 : dict) : Prop :=
  forall k, In k (keys d1) -> ~ In k (keys d2).

End Dict.
End PyDict.

Arguments PyDict.empty {V}.

(** [sorted(l, key=key)] on string keys: Python's sort is stable and orders
    by [<] on the keys; the result of a stable sort is determined by these
    two facts, and is computed here by insertion from the right. *)
Section Sorted.

Variable A : Type.
Variable key : A -> string.

Fixpoint insert_by (x : A) (l : list A) : list A :=
  match l with
  | [] => [x]
  | y :: r =>
      if String.ltb (key y) (key x) then y :: insert_by x r else x :: y :: r
  end.

Fixpoint sorted (l : list A) : list A :=
  match l with
  | [] => []
  | x :: r => insert_by x (sorted r)
  end.

(** The order the sort establishes. *)
Definition key_le (a b : A) : Prop := String.leb (key a) (key b) = true.

End Sorted.

(* ================================================================== *)
(** ** Document nodes *)
(* ================================================================== *)

(** The text nodes the extension builds: [nodes.Text(s)] and
    [nodes.inline(text=s)]. *)
Inductive Node : Type :=
| Text (data : string)
| inline (text : string).

Definition node_astext (n : Node) : string :=
  match n with
  | Text s => s
  | inline s => s
  end.

(** [nodes.container(ids=...)] holding the parsed content of a directive;
    each child is kept as its text. *)
Record container : Type := mk_container {
  container_ids : list string;
  container_children : list string
}.

(** [Element.astext]: the children's texts joined by the separator of
    [nodes.Element]. *)
Definition child_text_separator : string :=
  String (ascii_of_nat 10) (String (ascii_of_nat 10) "").

Definition container_astext (c : container) : string :=
  PyStr.join child_text_separator (container_children c).

(** [state.nested_parse(content, offset, node)]: the reStructuredText
    parser belongs to the host.  This stand-in appends the content as it
    is, which agrees with the parser on one line of plain text only; no
    statement relies on it, the description of a sample is always named
    as the child of the node the directive returns. *)
Definition nested_parse (content : list string) (content_offset : nat)
    (n : container) : container :=
  mk_container (container_ids n) (container_children n ++ content).

(** The code-sample dict
    [{"id", "name", "description", "relevant-api", "docname"}]. *)
Record code_sample : Type := mk_code_sample {
  cs_id : string;
  cs_name : string;
  cs_description : container;
  cs_relevant_api : list string;
  cs_docname : string
}.

Record CodeSampleNode : Type := mk_CodeSampleNode {
  csn_id : string;
  csn_name : string;
  csn_children : list container
}.

(** [addnodes.pending_xref]; [refexplicit] is [None] when the attribute is
    not set. *)
Record pending_xref : Type := mk_pending_xref {
  refdomain : string;
  reftype : string;
  reftarget : string;
  refwarn : bool;
  refexplicit : option bool;
  xref_children : list Node
}.

(** [nodes.definition_list_item] with its term and the text of the
    paragraph of its definition. *)
Record definition_list_item : Type := mk_dli {
  term : pending_xref;
  definition : string
}.

Definition definition_list : Type := list definition_list_item.

Record toctree : Type := mk_toctree {
  maxdepth : nat;
  hidden : bool;
  glob : bool;
  parent : string;
  entries : list (string * string);
  includefiles : list string
}.

Inductive CodeSampleListingNode : Type := mk_CodeSampleListingNode.

(** The [nodes.reference] built by the host's [make_refnode], kept as what
    it is built from: where the link is, where it goes, what it shows and
    its title. *)
Record reference : Type := mk_reference {
  ref_fromdocname : string;
  ref_todocname : string;
  ref_targetid : string;
  ref_children : list Node;
  reftitle : option string
}.

(** The link text of a reference. *)
Definition display_text (r : reference) : string :=
  PyStr.join "" (map node_astext (ref_children r)).

(** The [child] argument of [make_refnode]: a node or a list of nodes. *)
Inductive child : Type :=
| One (n : Node)
| Many (l : list Node).

Definition child_nodes (c : child) : list Node :=
  match c with
  | One n => [n]
  | Many l => l
  end.

(** [make_refnode(builder, fromdocname, todocname, targetid, child, title)];
    [node += child] appends a node or extends by a list, and the title is
    set when it is not empty. *)
Definition make_refnode (builder fromdocname todocname targetid : string)
    (c : child) (title : string) : reference :=
  mk_reference fromdocname todocname targetid (child_nodes c)
    (if (title =? "") then None else Some title).

Record admonition : Type := mk_admonition {
  adm_title : string;
  adm_classes : list string;
  adm_body : definition_list
}.

(** The nodes of a document the post-transform meets: the placeholders
    left by the patched [doxygengroup] directive, the admonitions that
    replace them, and everything else. *)
Inductive doc_node : Type :=
| RelatedCodeSamplesNode (id : string)
| Admonition (a : admonition)
| OtherNode (n : Node).

(* ================================================================== *)
(** ** Build state *)
(* ================================================================== *)

(** [env.domaindata["zephyr"]], which is also [ZephyrDomain.data]. *)
Record domaindata : Type := mk_domaindata {
  code_samples : PyDict.dict code_sample;
  code_samples_categories : PyDict.dict container
}.

Record LogRecord : Type := mk_LogRecord {
  levelname : string;
  message : string;
  location : string * nat
}.

Record BuildEnvironment : Type := mk_env {
  docname : string;
  zephyr : domaindata;
  metadata : PyDict.dict (PyDict.dict bool);
  reread_always : list string;
  logger : list LogRecord
}.

(** State and exceptions: a raised exception keeps the state reached. *)
Definition M (A : Type) : Type := BuildEnvironment -> result A * BuildEnvironment.

Definition ret {A} (a : A) : M A := fun env => (Ok a, env).

Definition bind {A B} (c : M A) (k : A -> M B) : M B :=
  fun env =>
    match c env with
    | (Ok a, env') => k a env'
    | (Raise e, env') => (Raise e, env')
    end.

Definition lift {A} (r : result A) : M A := fun env => (r, env).

Definition gets {A} (f : BuildEnvironment -> A) : M A := fun env => (Ok (f env), env).

Definition modify (f : BuildEnvironment -> BuildEnvironment) : M unit :=
  fun env => (Ok tt, f env).

Declare Scope py_scope.
Delimit Scope py_scope with py.
Notation "x <- c ;; k" := (bind c (fun x => k))
  (at level 61, c at next level, right associativity) : py_scope.
Notation "c ;; k" := (bind c (fun _ => k))
  (at level 61, right associativity) : py_scope.

(** [l[0]]. *)
Definition index0 {A} (l : list A) : result A :=
  match l with
  | x :: _ => Ok x
  | [] => Raise IndexError
  end.

(** [d.get(k, default)]. *)
Definition get_default {V} (d : PyDict.dict V) (k : string) (default : V) : V :=
  match PyDict.get d k with
  | Some v => v
  | None => default
  end.

(** [logger.warning(msg, location=loc)]. *)
Definition logger_warning (msg : string) (loc : string * nat) : M unit :=
  modify (fun env =>
    mk_env (docname env) (zephyr env) (metadata env) (reread_always env)
           (logger env ++ [mk_LogRecord "WARNING" msg loc])).

(** [env.metadata[env.docname][key] = value], on a [defaultdict(dict)]. *)
Definition set_metadata (key : string) (value : bool) : M unit :=
  modify (fun env =>
    let m := get_default (metadata env) (docname env) PyDict.empty in
    mk_env (docname env) (zephyr env)
           (PyDict.setitem (metadata env) (docname env) (PyDict.setitem m key value))
           (reread_always env) (logger env)).

(** [env.note_reread()]: adds the current document to a set. *)
Definition note_reread : M unit :=
  modify (fun env =>
    mk_env (docname env) (zephyr env) (metadata env)
           (if existsb (String.eqb (docname env)) (reread_always env)
            then reread_always env
            else reread_always env ++ [docname env])
           (logger env)).

Definition with_zephyr (f : domaindata -> domaindata) : M unit :=
  modify (fun env =>
    mk_env (docname env) (f (zephyr env)) (metadata env) (reread_always env)
           (logger env)).

(* ================================================================== *)
(** ** [ZephyrDomain] *)
(* ================================================================== *)

Module ZephyrDomain.

Definition initial_data : domaindata := mk_domaindata PyDict.empty PyDict.empty.

(** [clear_doc]: the code samples of other documents are kept; the
    categories are not touched. *)
Definition clear_doc (data : domaindata) (docname : string) : domaindata :=
  mk_domaindata
    (PyDict.comprehension_if
       (fun sample_id sample_data => negb (cs_docname sample_data =? docname))
       (code_samples data))
    (code_samples_categories data).

Definition merge_domaindata (data : domaindata) (docnames : list string)
    (otherdata : domaindata) : domaindata :=
  mk_domaindata
    (PyDict.update (code_samples data) (code_samples otherdata))
    (PyDict.update (code_samples_categories data) (code_samples_categories otherdata)).

Definition add_code_sample (data : domaindata) (code_sample : code_sample)
    : domaindata :=
  mk_domaindata
    (PyDict.setitem (code_samples data) (cs_id code_sample) code_sample)
    (code_samples_categories data).

Definition add_code_sample_category (data : domaindata) (name : string)
    (description : container) : domaindata :=
  mk_domaindata
    (code_samples data)
    (PyDict.setitem (code_samples_categories data) name description).

(** Truth value of [node.get("refexplicit")]. *)
Definition truthy (a : option bool) : bool :=
  match a with
  | Some b => b
  | None => false
  end.

(** [resolve_xref]; [None] is the implicit [return None].  A code-sample
    dict has five keys, so [if code_sample_info:] tests only that [get]
    found one. *)
Definition resolve_xref (data : domaindata) (fromdocname builder type target : string)
    (node : pending_xref) (contnode : Node) : option reference :=
  if (type =? "code-sample") then
    match PyDict.get (code_samples data) target with
    | Some code_sample_info =>
        let contnode' :=
          if negb (truthy (refexplicit node))
          then Many [Text (cs_name code_sample_info)]
          else One contnode in
        Some (make_refnode builder fromdocname
                (cs_docname code_sample_info)
                (cs_id code_sample_info)
                contnode'
                (container_astext (cs_description code_sample_info)))
    | None => None
    end
  else None.

(** [get_objects]: one tuple per registered sample, in registry order. *)
Definition get_objects (data : domaindata)
    : list (string * string * string * string * string * nat) :=
  map (fun item =>
         let code_sample := snd item in
         (cs_name code_sample, cs_name code_sample, "code sample",
          cs_docname code_sample, cs_id code_sample, 1))
      (PyDict.items (code_samples data)).

(** [get_object_synopses]: the place of a sample and the text of its
    description. *)
Definition get_object_synopses (data : domaindata)
    : list ((string * string) * string) :=
  map (fun item =>
         let code_sample := snd item in
         ((cs_docname code_sample, cs_id code_sample),
          container_astext (cs_description code_sample)))
      (PyDict.items (code_samples data)).

End ZephyrDomain.

(* ================================================================== *)
(** ** Listings *)
(* ================================================================== *)

(** The sort key [lambda x: x["name"].casefold()]. *)
Definition name_key (x : code_sample) : string := PyStr.casefold (cs_name x).

(** The body of the loop of [create_code_sample_definition_list]. *)
Definition sample_dli (code_sample : code_sample) : definition_list_item :=
  let sample_xref :=
    mk_pending_xref "zephyr" "code-sample" (cs_id code_sample) true None
      [inline (cs_name code_sample)] in
  mk_dli sample_xref (container_astext (cs_description code_sample)).

Definition create_code_sample_definition_list (code_samples : list code_sample)
    : definition_list :=
  map sample_dli (sorted name_key code_samples).

(** The names a definition list shows, in order. *)
Definition dl_names (dl : definition_list) : list string :=
  map (fun item => PyStr.join "" (map node_astext (xref_children (term item)))) dl.

Module ProcessRelatedCodeSamplesNode.

(** What one [RelatedCodeSamplesNode] is replaced with. *)
Definition process (data : domaindata) (id : string) : list doc_node :=
  let code_samples := PyDict.values (code_samples data) in
  let code_samples :=
    filter (fun code_sample => existsb (String.eqb id) (cs_relevant_api code_sample))
           code_samples in
  if Nat.ltb 0 (List.length code_samples) then
    let samples_dl := create_code_sample_definition_list code_samples in
    [Admonition (mk_admonition "Related code samples"
                   ["related-code-samples"; "dropdown"; "toggle-shown"]
                   samples_dl)]
  else [].

Definition run (data : domaindata) (document : list doc_node) : list doc_node :=
  flat_map (fun n =>
              match n with
              | RelatedCodeSamplesNode id => process data id
              | _ => [n]
              end) document.

End ProcessRelatedCodeSamplesNode.

Record Directive : Type := mk_Directive {
  arguments : list string;
  options : PyDict.dict string;
  content : list string;
  content_offset : nat;
  lineno : nat
}.

Local Open Scope py_scope.

Module CodeSampleDirective.

Definition run (self : Directive) : M (list CodeSampleNode) :=
  code_sample_id <- lift (index0 (arguments self)) ;;
  env_docname <- gets docname ;;
  code_samples <- gets (fun env => code_samples (zephyr env)) ;;
  set_metadata "orphan" true ;;
  (if PyDict.contains code_samples code_sample_id then
     other <- lift (PyDict.getitem code_samples code_sample_id) ;;
     logger_warning
       ("Code sample " ++ code_sample_id ++ " already exists. "
          ++ "Other instance in " ++ cs_docname other)%string
       (env_docname, lineno self)
   else ret tt) ;;
  let name := get_default (options self) "name" code_sample_id in
  let relevant_api_list := PyStr.split (get_default (options self) "relevant-api" "") in
  let description_node :=
    nested_parse (content self) (content_offset self)
      (mk_container [(code_sample_id ++ "-description")%string] []) in
  let code_sample :=
    mk_code_sample code_sample_id name description_node relevant_api_list env_docname in
  with_zephyr (fun data => ZephyrDomain.add_code_sample data code_sample) ;;
  ret [mk_CodeSampleNode code_sample_id name [description_node]].

End CodeSampleDirective.

Module CodeSampleCategoryDirective.

Definition run (self : Directive) : M (list (string * container)) :=
  name <- lift (index0 (arguments self)) ;;
  let description_node :=
    nested_parse (content self) (content_offset self)
      (mk_container [(name ++ "-description")%string] []) in
  with_zephyr (fun data => ZephyrDomain.add_code_sample_category data name description_node) ;;
  ret [(name, description_node)].

End CodeSampleCategoryDirective.

Module CodeSampleListingDirective.

(** The test of both loops:
    [path.dirname(code_sample["docname"]).startswith(path.dirname(env.docname))]. *)
Definition in_hierarchy (env_docname : string) (code_sample : code_sample) : bool :=
  PyStr.startswith (posixpath.dirname (cs_docname code_sample))
                   (posixpath.dirname env_docname).

Record output : Type := mk_output {
  out_dl : definition_list;
  out_toctree : toctree;
  out_listing : CodeSampleListingNode
}.

Definition run (self : Directive) : M output :=
  env_docname <- gets docname ;;
  code_samples <- gets (fun env => code_samples (zephyr env)) ;;
  note_reread ;;
  let dl :=
    create_code_sample_definition_list
      (filter (in_hierarchy env_docname) (PyDict.values code_samples)) in
  let in_toc :=
    filter (in_hierarchy env_docname)
           (sorted name_key (PyDict.values code_samples)) in
  let toctree :=
    mk_toctree 1 true false env_docname
      (map (fun code_sample => (cs_name code_sample, cs_docname code_sample)) in_toc)
      (map cs_docname in_toc) in
  ret (mk_output dl toctree mk_CodeSampleListingNode).

End CodeSampleListingDirective.

(** A sequence of registrations on a fresh registry. *)
Definition register_all (calls : list code_sample) : domaindata :=
  fold_left ZephyrDomain.add_code_sample calls ZephyrDomain.initial_data.

(** The last element of [calls] registered under [id]. *)
Definition last_call (calls : list code_sample) (id : string) : option code_sample :=
  find (fun c => cs_id c =? id) (rev calls).

(* ================================================================== *)
(** ** The patched [doxygengroup] directive and the category sections *)
(* ================================================================== *)

Module CustomDoxygenGroupDirective.

(** [run]: the nodes of Breathe's directive, here [nodes], preceded by the
    placeholder of the group named by the first argument. *)
Definition run (self : Directive) (nodes : list doc_node) : result (list doc_node) :=
  match index0 (arguments self) with
  | Ok id => Ok (RelatedCodeSamplesNode id :: nodes)
  | Raise e => Raise e
  end.

End CustomDoxygenGroupDirective.

(** What a [nodes.section] built by [ProcessCodeSampleListingNode] holds
    after its title. *)
Inductive section_child : Type :=
| paragraph (text : string)
| toctree_child (t : toctree).

Record section : Type := mk_section {
  section_ids : list string;
  section_title : string;
  section_children : list section_child
}.

(** The nodes of a document the listing post-transform meets. *)
Inductive listing_doc_node : Type :=
| ListingNode (n : CodeSampleListingNode)
| SectionNode (s : section)
| ListingOther (n : Node).

Module ProcessCodeSampleListingNode.

(** The section built for one category. *)
Definition category_section (env_docname category_name : string)
    (category_description : container) : section :=
  let toctree :=
    mk_toctree 1 false false env_docname
      [("TESTTOC", "snippets/xen_dom0/README")] [] in
  mk_section [(category_name ++ "-sample-category-x")%string] category_name
    [paragraph "BIDON FOR NOW"; toctree_child toctree; paragraph "BIDON FOR NOW222"].

(** What one [CodeSampleListingNode] is replaced with. *)
Definition node_list (env_docname : string) (data : domaindata) : list listing_doc_node :=
  map (fun item => SectionNode (category_section env_docname (fst item) (snd item)))
      (PyDict.items (code_samples_categories data)).

Definition run (env_docname : string) (data : domaindata)
    (document : list listing_doc_node) : list listing_doc_node :=
  flat_map (fun n =>
              match n with
              | ListingNode _ => node_list env_docname data
              | _ => [n]
              end) document.

End ProcessCodeSampleListingNode.

(* ================================================================== *)
(** ** [ConvertCodeSampleNode] *)
(* ================================================================== *)

Module ConvertCodeSampleNode.
Section Convert.

(** [gh_link_get_url(app, docname)] comes from [zephyr.gh_utils]; what it
    returns for a document is a parameter here. *)
Variable url : Type.
Variable gh_link_get_url : string -> url.

(** The children of the parent before the transform.  They are element
    objects, which [==] compares by identity: [uid] tells them apart. *)
Inductive body : Type :=
| CodeSample (n : CodeSampleNode)
| Element (text : string).

Record tree_node : Type := mk_tree_node {
  uid : nat;
  node_body : body
}.

(** [nodes.section(ids=[...])] with its title and the nodes moved under
    it. *)
Record new_section : Type := mk_new_section {
  new_ids : list string;
  new_title : string;
  new_children : list tree_node
}.

(** The children of the parent during and after the transform: the new
    section is a fresh object, equal to none of the old ones. *)
Inductive parent_child : Type :=
| Kept (n : tree_node)
| NewSection (s : new_section).

(** What [node.document += ...] appends: the [meta] node and the raw
    JSON-LD node, the latter kept as the dict given to [json.dumps]. *)
Inductive document_child : Type :=
| meta (name content : string)
| json_ld (name description codeSampleType : string) (codeRepository : url).

Inductive outcome : Type :=
| NoParent
| Converted (children : list parent_child) (appended : list document_child)
| ValueError
| ChildIndexError.

(** [parent.index(node)]; [None] stands for [ValueError]. *)
Fixpoint index (children : list tree_node) (node : nat) : option nat :=
  match children with
  | [] => None
  | c :: r => if Nat.eqb (uid c) node then Some 0 else option_map S (index r node)
  end.

(** [parent.remove(sibling)]; [None] stands for [ValueError]. *)
Fixpoint remove (children : list parent_child) (sibling : nat)
    : option (list parent_child) :=
  match children with
  | [] => None
  | Kept c :: r =>
      if Nat.eqb (uid c) sibling then Some r
      else option_map (cons (Kept c)) (remove r sibling)
  | NewSection s :: r => option_map (cons (NewSection s)) (remove r sibling)
  end.

(** [for sibling in siblings_to_move: parent.remove(sibling)]. *)
Fixpoint remove_each (siblings_to_move : list tree_node) (children : list parent_child)
    : option (list parent_child) :=
  match siblings_to_move with
  | [] => Some children
  | sibling :: r =>
      match remove children (uid sibling) with
      | Some children' => remove_each r children'
      | None => None
      end
  end.

(** [convert_node] on the node with identity [node_uid] and attributes
    [node]; [parent] is the child list of [node.parent], or [None]. *)
Definition convert_node (env_docname : string) (parent : option (list tree_node))
    (node_uid : nat) (node : CodeSampleNode) : outcome :=
  match parent with
  | None => NoParent
  | Some children =>
      match index children node_uid with
      | None => ValueError
      | Some index =>
          let siblings_to_move := skipn (index + 1) children in
          let new_section :=
            mk_new_section [csn_id node] (csn_name node) siblings_to_move in
          let replaced :=
            map Kept (firstn index children)
            ++ NewSection new_section :: map Kept (skipn (index + 1) children) in
          match remove_each siblings_to_move replaced with
          | None => ValueError
          | Some children' =>
              match csn_children node with
              | [] => ChildIndexError
              | description :: _ =>
                  Converted children'
                    [meta "description" (container_astext description);
                     json_ld (csn_name node) (container_astext description) "full"
                       (gh_link_get_url env_docname)]
              end
          end
      end
  end.

End Convert.
End ConvertCodeSampleNode.

(* ================================================================== *)
(** ** Predicates used in the statements *)
(* ================================================================== *)

(** [c in s] for a character. *)
Fixpoint has_char (c : ascii) (s : string) : bool :=
  match s with
  | EmptyString => false
  | String a r => Ascii.eqb a c || has_char c r
  end.

(** Every character of [s] passes [p]. *)
Fixpoint all_chars (p : ascii -> bool) (s : string) : bool :=
  match s with
  | EmptyString => true
  | String a r => p a && all_chars p r
  end.

(** Text within ASCII, where [PyStr.casefold] and [PyStr.split] are
    Python's. *)
Definition is_ascii (s : string) : bool :=
  all_chars (fun c => Nat.ltb (nat_of_ascii c) 128) s.

(** The names of the samples are ASCII. *)
Definition ascii_names (l : list code_sample) : Prop :=
  Forall (fun s => is_ascii (cs_name s) = true) l.

(** The environment after the [code-sample] directives of the document
    being read have run in order. *)
Definition read_directives (directives : list Directive) (env : BuildEnvironment)
    : BuildEnvironment :=
  fold_left (fun env self => snd (CodeSampleDirective.run self env)) directives env.

(** A token: not empty and without white space. *)
Definition is_token (t : string) : bool :=
  negb (t =? "") && all_chars (fun c => negb (PyStr.isspace c)) t.

Definition is_placeholder (n : doc_node) : bool :=
  match n with
  | RelatedCodeSamplesNode _ => true
  | _ => false
  end.

(** The ids a node of the listing document carries. *)
Definition listing_node_ids (n : listing_doc_node) : list string :=
  match n with
  | SectionNode s => section_ids s
  | _ => []
  end.

Definition is_listing_node (n : listing_doc_node) : bool :=
  match n with
  | ListingNode _ => true
  | _ => false
  end.

(** The state of a registry the operations keep: no id and no category
    name is held twice, and every sample is stored under its own id. *)
Definition registry_ok (data : domaindata) : Prop :=
  PyDict.wf (code_samples data)
  /\ Forall (fun item => cs_id (snd item) = fst item) (PyDict.items (code_samples data))
  /\ PyDict.wf (code_samples_categories data).

(** The environment with another registry. *)
Definition with_data (env : BuildEnvironment) (data : domaindata) : BuildEnvironment :=
  mk_env (docname env) data (metadata env) (reread_always env) (logger env).

(** The warning of a duplicate declaration of [id] at [loc]. *)
Definition duplicate_warning (id : string) (other : code_sample) (loc : string * nat)
    : LogRecord :=
  mk_LogRecord "WARNING"
    ("Code sample " ++ id ++ " already exists. Other instance in " ++ cs_docname other)%string
    loc.

(* ================================================================== *)
(** ** Sample data *)
(* ================================================================== *)

Definition blinky : code_sample :=
  mk_code_sample "blinky" "Blinky"
    (mk_container ["blinky-description"] ["Blink an LED forever using the GPIO API."])
    ["gpio_interface"] "samples/basic/blinky".

Definition abc : code_sample :=
  mk_code_sample "abc" "ABC"
    (mk_container ["abc-description"] ["Alphabet on the console."])
    [] "samples/basic/abc".

Definition foo : code_sample :=
  mk_code_sample "foo" "Foo"
    (mk_container ["foo-description"] ["Use the foo API."])
    ["foo_api"; "gpio_interface"] "samples/basicXYZ/foo".

Definition uart_echo : code_sample :=
  mk_code_sample "echo" "Echo"
    (mk_container ["echo-description"] ["Echo the console."])
    ["uart_interface"] "samples/drivers/uart/echo".




(** [blinky] declared once more, by another document. *)
Definition blinky_moved : code_sample :=
  mk_code_sample "blinky" "Blinky LED"
    (mk_container ["blinky-description"] ["Blink twice."])
    [] "samples/other/blinky".

(** Two shards with no id and no category name in common. *)
Definition shard_a : domaindata :=
  ZephyrDomain.add_code_sample_category (register_all [blinky; abc])
    "Basic" (mk_container ["Basic-description"] ["Basic samples."]).

Definition shard_b : domaindata :=
  ZephyrDomain.add_code_sample_category (register_all [foo; uart_echo])
    "Drivers" (mk_container ["Drivers-description"] ["Driver samples."]).

(** A second declaration of [blinky], with no option. *)
Definition redeclare_blinky : Directive :=
  mk_Directive ["blinky"] PyDict.empty ["Blink twice."] 0 7.

(** A declaration of the category [Basic], already present in [shard_a]. *)
Definition declare_basic : Directive :=
  mk_Directive ["Basic"] PyDict.empty ["Simple samples."] 0 4.

(** A declaration of [abc], which [shard_a] holds for another document. *)
Definition declare_abc : Directive :=
  mk_Directive ["abc"] PyDict.empty ["Another alphabet."] 0 9.

(** A declaration naming two API groups. *)
Definition declare_blinky_pwm : Directive :=
  mk_Directive ["blinky_pwm"]
    [("name", "PWM Blinky"); ("relevant-api", "gpio_interface pwm_interface")]
    ["Blink an LED using the PWM API."] 0 3.

(** The patched directive for the group [gpio_interface]. *)
Definition doxygengroup_gpio : Directive :=
  mk_Directive ["gpio_interface"] PyDict.empty [] 0 20.

Definition listing_directive : Directive :=
  mk_Directive [] PyDict.empty [] 0 12.

(** An environment reading [docname] with registry [data]. *)
Definition env_at (docname : string) (data : domaindata) : BuildEnvironment :=
  mk_env docname data PyDict.empty [] [].

(* ================================================================== *)
(** ** The order on strings *)
(* ================================================================== *)

Lemma ascii_compare_refl (a : ascii) : Ascii.compare a a = Eq.
Proof. unfold Ascii.compare. apply N.compare_refl. Qed.

Lemma ascii_compare_lt_trans (a b c : ascii) :
  Ascii.compare a b = Lt -> Ascii.compare b c = Lt -> Ascii.compare a c = Lt.
Proof.
  unfold Ascii.compare. rewrite !N.compare_lt_iff. apply N.lt_trans.
Qed.

Lemma string_compare_refl (s : string) : String.compare s s = Eq.
Proof.
  induction s as [|a s IH]; simpl; [reflexivity|].
  now rewrite ascii_compare_refl.
Qed.

Lemma string_compare_lt_trans (s1 : string) :
  forall s2 s3,
    String.compare s1 s2 = Lt -> String.compare s2 s3 = Lt ->
    String.compare s1 s3 = Lt.
Proof.
  induction s1 as [|a s1 IH]; intros [|b s2] [|c s3]; simpl; try congruence.
  destruct (Ascii.compare a b) eqn:Hab; try congruence;
    destruct (Ascii.compare b c) eqn:Hbc; try congruence; intros H12 H23.
  - apply Ascii.compare_eq_iff in Hab, Hbc. subst.
    rewrite ascii_compare_refl. eauto.
  - apply Ascii.compare_eq_iff in Hab. subst. now rewrite Hbc.
  - apply Ascii.compare_eq_iff in Hbc. subst. now rewrite Hab.
  - now rewrite (ascii_compare_lt_trans _ _ _ Hab Hbc).
Qed.

Lemma string_leb_iff (s1 s2 : string) :
  String.leb s1 s2 = true <-> String.compare s1 s2 = Lt \/ s1 = s2.
Proof.
  unfold String.leb. split.
  - destruct (String.compare s1 s2) eqn:H; try discriminate; intros _.
    + right. now apply String.compare_eq_iff.
    + now left.
  - intros [-> | ->]; [reflexivity|]. now rewrite string_compare_refl.
Qed.

Lemma string_leb_refl (s : string) : String.leb s s = true.
Proof. apply string_leb_iff. now right. Qed.

Lemma string_leb_trans (s1 s2 s3 : string) :
  String.leb s1 s2 = true -> String.leb s2 s3 = true -> String.leb s1 s3 = true.
Proof.
  rewrite !string_leb_iff. intros [H12 | ->] [H23 | <-]; auto.
  left. eapply string_compare_lt_trans; eassumption.
Qed.

Lemma string_ltb_leb (s1 s2 : string) :
  String.ltb s1 s2 = true -> String.leb s1 s2 = true.
Proof.
  unfold String.ltb, String.leb. now destruct (String.compare s1 s2).
Qed.

Lemma string_ltb_false_leb (s1 s2 : string) :
  String.ltb s1 s2 = false -> String.leb s2 s1 = true.
Proof.
  unfold String.ltb, String.leb. rewrite (String.compare_antisym s1 s2).
  now destruct (String.compare s2 s1).
Qed.


Lemma prefix_refl (s : string) : String.prefix s s = true.
Proof.
  induction s as [|a s IH]; simpl; [reflexivity|].
  now destruct (ascii_dec a a).
Qed.

(* ================================================================== *)
(** ** Facts about [sorted] *)
(* ================================================================== *)

Section SortedFacts.

Variable A : Type.
Variable key : A -> string.

Lemma insert_by_perm (x : A) (l : list A) : Permutation (insert_by key x l) (x :: l).
Proof.
  induction l as [|y r IH]; simpl; [reflexivity|].
  destruct (String.ltb (key y) (key x)); [|reflexivity].
  rewrite IH. apply perm_swap.
Qed.

Lemma sorted_perm (l : list A) : Permutation (sorted key l) l.
Proof.
  induction l as [|x r IH]; simpl; [reflexivity|].
  rewrite insert_by_perm. now constructor.
Qed.

Lemma sorted_In (l : list A) (x : A) : In x (sorted key l) <-> In x l.
Proof.
  split; apply Permutation_in; [|symmetry]; apply sorted_perm.
Qed.

Lemma insert_by_sorted (x : A) (l : list A) :
  StronglySorted (key_le key) l -> StronglySorted (key_le key) (insert_by key x l).
Proof.
  induction 1 as [|y r Hr IH Hy]; simpl.
  - repeat constructor.
  - destruct (String.ltb (key y) (key x)) eqn:Hlt.
    + constructor; [assumption|].
      rewrite Forall_forall. intros z Hz.
      apply (Permutation_in _ (insert_by_perm x r)) in Hz.
      destruct Hz as [<- | Hz].
      * now apply string_ltb_leb.
      * rewrite Forall_forall in Hy. now apply Hy.
    + assert (Hxy : key_le key x y) by now apply string_ltb_false_leb.
      constructor; [now constructor|].
      constructor; [assumption|].
      rewrite Forall_forall in *. intros z Hz.
      unfold key_le in *. eapply string_leb_trans; eauto.
Qed.

Lemma sorted_sorted (l : list A) : StronglySorted (key_le key) (sorted key l).
Proof.
  induction l as [|x r IH]; simpl; [constructor|].
  now apply insert_by_sorted.
Qed.



End SortedFacts.

(* ================================================================== *)
(** ** Facts about dicts *)
(* ================================================================== *)

Section DictFacts.

Variable V : Type.
Implicit Types (d other : PyDict.dict V) (k : string) (v : V).

Lemma get_None_iff d k : PyDict.get d k = None <-> ~ In k (PyDict.keys d).
Proof.
  induction d as [|[k' v'] r IH]; simpl; [tauto|].
  destruct (k' =? k) eqn:E.
  - apply String.eqb_eq in E. split; [discriminate|tauto].
  - apply String.eqb_neq in E. rewrite IH. tauto.
Qed.

Lemma get_Some_In d k v : PyDict.get d k = Some v -> In (k, v) (PyDict.items d).
Proof.
  induction d as [|[k' v'] r IH]; simpl; [discriminate|].
  destruct (k' =? k) eqn:E.
  - apply String.eqb_eq in E. intros [= ->]. subst. now left.
  - auto.
Qed.

Lemma In_keys_get d k : In k (PyDict.keys d) <-> exists v, PyDict.get d k = Some v.
Proof.
  destruct (PyDict.get d k) eqn:E.
  - split; [eauto|]. intros _.
    apply get_Some_In in E. apply (in_map fst) in E. exact E.
  - apply get_None_iff in E. split; [tauto|]. intros [v Hv]. discriminate.
Qed.

Lemma In_get_wf d k v : PyDict.wf d -> In (k, v) (PyDict.items d) -> PyDict.get d k = Some v.
Proof.
  unfold PyDict.wf, PyDict.items.
  induction d as [|[k' v'] r IH]; simpl; [tauto|].
  intros Hwf [[= -> ->] | Hin].
  - now rewrite String.eqb_refl.
  - inversion Hwf as [|? ? Hnotin Hr]; subst.
    destruct (k' =? k) eqn:E; [|auto].
    apply String.eqb_eq in E. subst.
    exfalso. apply Hnotin. now apply (in_map fst) in Hin.
Qed.

Lemma get_setitem d k v k' :
  PyDict.get (PyDict.setitem d k v) k' = if (k =? k') then Some v else PyDict.get d k'.
Proof.
  induction d as [|[k0 v0] r IH]; simpl.
  - reflexivity.
  - destruct (k0 =? k) eqn:E0; simpl.
    + apply String.eqb_eq in E0. subst. now destruct (k =? k').
    + rewrite IH. destruct (k0 =? k') eqn:E1; [|reflexivity].
      apply String.eqb_eq in E1. subst. now rewrite String.eqb_sym, E0.
Qed.

Lemma setitem_present d k v :
  In k (PyDict.keys d) -> PyDict.keys (PyDict.setitem d k v) = PyDict.keys d.
Proof.
  induction d as [|[k0 v0] r IH]; simpl; [tauto|].
  destruct (k0 =? k) eqn:E0; simpl; [reflexivity|].
  apply String.eqb_neq in E0. intros [?|H]; [contradiction|].
  now rewrite IH.
Qed.

Lemma setitem_fresh d k v :
  ~ In k (PyDict.keys d) -> PyDict.setitem d k v = d ++ [(k, v)].
Proof.
  induction d as [|[k0 v0] r IH]; simpl; [reflexivity|].
  intros H. destruct (k0 =? k) eqn:E0.
  - apply String.eqb_eq in E0. tauto.
  - rewrite IH; tauto.
Qed.

Lemma In_keys_setitem d k v k' :
  In k' (PyDict.keys (PyDict.setitem d k v)) <-> k = k' \/ In k' (PyDict.keys d).
Proof.
  rewrite !In_keys_get, get_setitem.
  destruct (k =? k') eqn:E.
  - apply String.eqb_eq in E. split; eauto.
  - apply String.eqb_neq in E. split; [auto|]. intros [?|?]; tauto.
Qed.

Lemma wf_setitem d k v : PyDict.wf d -> PyDict.wf (PyDict.setitem d k v).
Proof.
  unfold PyDict.wf. intros Hwf.
  destruct (in_dec string_dec k (PyDict.keys d)) as [Hin|Hnotin].
  - now rewrite setitem_present.
  - rewrite setitem_fresh by assumption.
    unfold PyDict.keys in *. rewrite map_app. simpl.
    apply NoDup_app; [assumption|repeat constructor; tauto|].
    intros x Hx [<-|[]]. contradiction.
Qed.

Lemma wf_update d other : PyDict.wf d -> PyDict.wf (PyDict.update d other).
Proof.
  unfold PyDict.update, PyDict.items. revert d.
  induction other as [|[k v] r IH]; simpl; intros d Hwf; [assumption|].
  apply IH. now apply wf_setitem.
Qed.

(** [update] read through [get]: the entry of [other] wins. *)
Lemma get_update d other k :
  PyDict.wf other ->
  PyDict.get (PyDict.update d other) k
  = match PyDict.get other k with
    | Some v => Some v
    | None => PyDict.get d k
    end.
Proof.
  unfold PyDict.update, PyDict.items, PyDict.wf. revert d.
  induction other as [|[k0 v0] r IH]; simpl; intros d Hwf; [reflexivity|].
  inversion Hwf as [|? ? Hnotin Hr]; subst.
  rewrite IH by assumption. rewrite get_setitem.
  destruct (k0 =? k) eqn:E; [|reflexivity].
  apply String.eqb_eq in E. subst.
  apply get_None_iff in Hnotin. now rewrite Hnotin.
Qed.

(** On disjoint keys [update] appends the items of [other]. *)
Lemma update_disjoint other : forall d,
  PyDict.wf other ->
  (forall k, In k (PyDict.keys other) -> ~ In k (PyDict.keys d)) ->
  PyDict.update d other = d ++ other.
Proof.
  unfold PyDict.update, PyDict.items, PyDict.wf.
  induction other as [|[k0 v0] r IH]; simpl; intros d Hwf Hdisj.
  - now rewrite app_nil_r.
  - inversion Hwf as [|? ? Hnotin Hr]; subst.
    rewrite setitem_fresh by (apply Hdisj; now left).
    rewrite IH; [now rewrite <- app_assoc|assumption|].
    intros k Hk. unfold PyDict.keys. rewrite map_app, in_app_iff. simpl.
    intros [Hd|[<-|[]]]; [|contradiction].
    apply (Hdisj k); [now right|exact Hd].
Qed.

Lemma In_comprehension_if (p : string -> V -> bool) d k v :
  In (k, v) (PyDict.items (PyDict.comprehension_if p d))
  <-> In (k, v) (PyDict.items d) /\ p k v = true.
Proof.
  unfold PyDict.comprehension_if, PyDict.items. now rewrite filter_In.
Qed.

Lemma wf_comprehension_if (p : string -> V -> bool) d :
  PyDict.wf d -> PyDict.wf (PyDict.comprehension_if p d).
Proof.
  unfold PyDict.wf, PyDict.comprehension_if, PyDict.items, PyDict.keys.
  induction d as [|[k v] r IH]; simpl; intros Hwf; [constructor|].
  inversion Hwf as [|? ? Hnotin Hr]; subst.
  destruct (p k v); simpl; [|auto].
  constructor; [|auto].
  intros Hin. apply Hnotin.
  apply in_map_iff in Hin. destruct Hin as [[k' v'] [Hk Hin]].
  apply filter_In in Hin. apply in_map_iff. exists (k', v'). tauto.
Qed.

Lemma get_comprehension_if (p : string -> V -> bool) d k :
  PyDict.wf d ->
  PyDict.get (PyDict.comprehension_if p d) k
  = match PyDict.get d k with
    | Some v => if p k v then Some v else None
    | None => None
    end.
Proof.
  intros Hwf.
  destruct (PyDict.get (PyDict.comprehension_if p d) k) as [v|] eqn:E.
  - apply get_Some_In, In_comprehension_if in E. destruct E as [Hin Hp].
    rewrite (@In_get_wf d k v Hwf Hin). now rewrite Hp.
  - destruct (PyDict.get d k) as [v|] eqn:E'; [|reflexivity].
    destruct (p k v) eqn:Hp; [|reflexivity].
    apply get_Some_In in E'.
    assert (Hin : In (k, v) (PyDict.items (PyDict.comprehension_if p d)))
      by (apply In_comprehension_if; tauto).
    apply (@In_get_wf _ k v (wf_comprehension_if p Hwf)) in Hin. congruence.
Qed.

End DictFacts.

(* ================================================================== *)
(** ** Registration *)
(* ================================================================== *)

Lemma last_call_snoc (calls : list code_sample) (c : code_sample) (id : string) :
  last_call (calls ++ [c]) id = if (cs_id c =? id) then Some c else last_call calls id.
Proof. unfold last_call. now rewrite rev_app_distr. Qed.

Lemma get_register_from (calls : list code_sample) (data : domaindata) (id : string) :
  PyDict.get (code_samples (fold_left ZephyrDomain.add_code_sample calls data)) id
  = match last_call calls id with
    | Some c => Some c
    | None => PyDict.get (code_samples data) id
    end.
Proof.
  induction calls as [|c calls IH] using rev_ind; [reflexivity|].
  rewrite fold_left_app, last_call_snoc. simpl.
  rewrite get_setitem. now destruct (cs_id c =? id).
Qed.

Lemma keys_register_from (calls : list code_sample) (data : domaindata) (id : string) :
  In id (PyDict.keys (code_samples (fold_left ZephyrDomain.add_code_sample calls data)))
  <-> In id (map cs_id calls) \/ In id (PyDict.keys (code_samples data)).
Proof.
  induction calls as [|c calls IH] using rev_ind; simpl; [tauto|].
  rewrite fold_left_app. simpl.
  rewrite In_keys_setitem, IH, map_app, in_app_iff. simpl. tauto.
Qed.

Lemma wf_register_from (calls : list code_sample) (data : domaindata) :
  PyDict.wf (code_samples data) ->
  PyDict.wf (code_samples (fold_left ZephyrDomain.add_code_sample calls data)).
Proof.
  intros Hwf. induction calls as [|c calls IH] using rev_ind; [assumption|].
  rewrite fold_left_app. simpl. now apply wf_setitem.
Qed.

(** C1. After any sequence of registrations on a fresh registry, the
    registry holds every registered id once and no other key, so it has as
    many entries as there are distinct ids, and the entry of an id is the
    payload of the last call made with that id. *)
Theorem register_last_write_wins (calls : list code_sample) :
  let registry := code_samples (register_all calls) in
  NoDup (PyDict.keys registry)
  /\ (forall id, In id (PyDict.keys registry) <-> In id (map cs_id calls))
  /\ PyDict.len registry = List.length (nodup string_dec (map cs_id calls))
  /\ (forall id, PyDict.get registry id = last_call calls id)
  /\ (forall id c, PyDict.get registry id = Some c -> cs_id c = id /\ In c calls).
Proof.
  cbv zeta. unfold register_all.
  assert (Hwf : NoDup (PyDict.keys
            (code_samples (fold_left ZephyrDomain.add_code_sample calls
                                     ZephyrDomain.initial_data)))).
  { apply wf_register_from. constructor. }
  assert (Hkeys : forall id,
            In id (PyDict.keys
              (code_samples (fold_left ZephyrDomain.add_code_sample calls
                                       ZephyrDomain.initial_data)))
            <-> In id (map cs_id calls)).
  { intros id. rewrite keys_register_from. simpl. tauto. }
  assert (Hget : forall id,
            PyDict.get
              (code_samples (fold_left ZephyrDomain.add_code_sample calls
                                       ZephyrDomain.initial_data)) id
            = last_call calls id).
  { intros id. rewrite get_register_from. simpl. now destruct (last_call calls id). }
  split; [exact Hwf|]. split; [exact Hkeys|]. split; [|split; [exact Hget|]].
  - unfold PyDict.len.
    rewrite <- (length_map fst). apply Permutation_length.
    apply NoDup_Permutation; [exact Hwf|apply NoDup_nodup|].
    intros id. fold (PyDict.keys
      (code_samples (fold_left ZephyrDomain.add_code_sample calls
                               ZephyrDomain.initial_data))).
    rewrite Hkeys. now rewrite nodup_In.
  - intros id c Hc. rewrite Hget in Hc. unfold last_call in Hc.
    apply find_some in Hc. destruct Hc as [Hin Hid].
    split; [now apply String.eqb_eq|now apply in_rev].
Qed.

(* ================================================================== *)
(** ** Clearing a document *)
(* ================================================================== *)

(** C3. [clear_doc] keeps, in their order, the samples declared by other
    documents and only those, and the categories are the same mapping as
    before. *)
Theorem clear_doc_removes_exactly (data : domaindata) (d : string) :
  let data' := ZephyrDomain.clear_doc data d in
  code_samples_categories data' = code_samples_categories data
  /\ PyDict.items (code_samples data')
     = filter (fun kv => negb (cs_docname (snd kv) =? d))
              (PyDict.items (code_samples data))
  /\ (forall id s,
        In (id, s) (PyDict.items (code_samples data'))
        <-> In (id, s) (PyDict.items (code_samples data)) /\ cs_docname s <> d).
Proof.
  cbv zeta. split; [reflexivity|]. split; [reflexivity|].
  intros id s. unfold ZephyrDomain.clear_doc. cbn [code_samples].
  rewrite In_comprehension_if.
  rewrite negb_true_iff, String.eqb_neq. tauto.
Qed.

(** On a registry [clear_doc] reads through [get] as expected, and the
    result is a registry again. *)
Lemma get_clear_doc (data : domaindata) (d id : string) :
  PyDict.wf (code_samples data) ->
  PyDict.wf (code_samples (ZephyrDomain.clear_doc data d))
  /\ PyDict.get (code_samples (ZephyrDomain.clear_doc data d)) id
     = match PyDict.get (code_samples data) id with
       | Some s => if (cs_docname s =? d) then None else Some s
       | None => None
       end.
Proof.
  intros Hwf. unfold ZephyrDomain.clear_doc. cbn [code_samples]. split.
  - now apply wf_comprehension_if.
  - rewrite get_comprehension_if by assumption.
    destruct (PyDict.get (code_samples data) id) as [s|]; [|reflexivity].
    now destruct (cs_docname s =? d).
Qed.

(* ================================================================== *)
(** ** Merging shards *)
(* ================================================================== *)

Section UpdateFacts.

Variable V : Type.
Implicit Types (a b : PyDict.dict V).

Lemma keys_update a b (k : string) :
  PyDict.wf b ->
  In k (PyDict.keys (PyDict.update a b)) <-> In k (PyDict.keys a) \/ In k (PyDict.keys b).
Proof.
  intros Hb. rewrite !In_keys_get, get_update by assumption.
  destruct (PyDict.get b k) as [v|].
  - split; eauto.
  - split; [auto|]. intros [H|[v Hv]]; [exact H|discriminate].
Qed.

Lemma len_update_disjoint a b :
  PyDict.wf b -> PyDict.disjoint a b ->
  PyDict.len (PyDict.update a b) = PyDict.len a + PyDict.len b.
Proof.
  intros Hb Hdisj. rewrite update_disjoint; [apply length_app|assumption|].
  intros k Hkb Hka. exact (Hdisj k Hka Hkb).
Qed.

Lemma update_comm_disjoint a b :
  PyDict.wf a -> PyDict.wf b -> PyDict.disjoint a b ->
  PyDict.eq (PyDict.update a b) (PyDict.update b a)
  /\ Permutation (PyDict.items (PyDict.update a b)) (PyDict.items (PyDict.update b a)).
Proof.
  intros Ha Hb Hdisj. split.
  - intros k. rewrite !get_update by assumption.
    destruct (PyDict.get a k) as [va|] eqn:Ea, (PyDict.get b k) as [vb|] eqn:Eb;
      try reflexivity.
    exfalso. apply (Hdisj k); apply In_keys_get; eauto.
  - rewrite (@update_disjoint V b a), (@update_disjoint V a b); try assumption.
    + apply Permutation_app_comm.
    + intros k Hkb Hka. exact (Hdisj k Hka Hkb).
Qed.

End UpdateFacts.

(** C5. Merging shard [B] into [A] gives, for the code samples and for the
    categories alike, the union of the two mappings in which an entry of
    [B] replaces the entry of [A] under the same key; when the key sets
    are disjoint the result has [|A| + |B|] entries. *)
Theorem merge_is_union_incoming_wins (A B : domaindata) (docnames : list string) :
  PyDict.wf (code_samples B) ->
  PyDict.wf (code_samples_categories B) ->
  let R := ZephyrDomain.merge_domaindata A docnames B in
  ((forall id,
      PyDict.get (code_samples R) id
      = match PyDict.get (code_samples B) id with
        | Some s => Some s
        | None => PyDict.get (code_samples A) id
        end)
   /\ (forall id,
         In id (PyDict.keys (code_samples R))
         <-> In id (PyDict.keys (code_samples A)) \/ In id (PyDict.keys (code_samples B)))
   /\ (PyDict.disjoint (code_samples A) (code_samples B) ->
       PyDict.len (code_samples R)
       = PyDict.len (code_samples A) + PyDict.len (code_samples B)))
  /\
  ((forall name,
      PyDict.get (code_samples_categories R) name
      = match PyDict.get (code_samples_categories B) name with
        | Some c => Some c
        | None => PyDict.get (code_samples_categories A) name
        end)
   /\ (forall name,
         In name (PyDict.keys (code_samples_categories R))
         <-> In name (PyDict.keys (code_samples_categories A))
             \/ In name (PyDict.keys (code_samples_categories B)))
   /\ (PyDict.disjoint (code_samples_categories A) (code_samples_categories B) ->
       PyDict.len (code_samples_categories R)
       = PyDict.len (code_samples_categories A)
         + PyDict.len (code_samples_categories B))).
Proof.
  intros Hs Hc. cbv zeta. unfold ZephyrDomain.merge_domaindata.
  cbn [code_samples code_samples_categories].
  split; (split; [|split]).
  - intros id. now apply get_update.
  - intros id. now apply keys_update.
  - now apply len_update_disjoint.
  - intros name. now apply get_update.
  - intros name. now apply keys_update.
  - now apply len_update_disjoint.
Qed.

(** C9. When two shards share no sample id, merging [B] into [A] and
    merging [A] into [B] give equal code-sample mappings: every id reads
    the same in both, and the two hold the same items; the categories
    behave in the same way when no category name is shared. *)
Theorem merge_commutes_on_disjoint_shards (A B : domaindata) (dA dB : list string) :
  PyDict.wf (code_samples A) ->
  PyDict.wf (code_samples B) ->
  PyDict.disjoint (code_samples A) (code_samples B) ->
  let AB := ZephyrDomain.merge_domaindata A dB B in
  let BA := ZephyrDomain.merge_domaindata B dA A in
  PyDict.eq (code_samples AB) (code_samples BA)
  /\ Permutation (PyDict.items (code_samples AB)) (PyDict.items (code_samples BA))
  /\ (PyDict.wf (code_samples_categories A) ->
      PyDict.wf (code_samples_categories B) ->
      PyDict.disjoint (code_samples_categories A) (code_samples_categories B) ->
      PyDict.eq (code_samples_categories AB) (code_samples_categories BA)
      /\ Permutation (PyDict.items (code_samples_categories AB))
                     (PyDict.items (code_samples_categories BA))).
Proof.
  intros HA HB Hdisj. cbv zeta. unfold ZephyrDomain.merge_domaindata.
  cbn [code_samples code_samples_categories].
  destruct (update_comm_disjoint HA HB Hdisj) as [Heq Hperm].
  split; [exact Heq|]. split; [exact Hperm|].
  intros HcA HcB Hcdisj. now apply update_comm_disjoint.
Qed.

(* ================================================================== *)
(** ** The [code-sample] directive *)
(* ================================================================== *)

(** The run of the directive in closed form. *)
Lemma CodeSampleDirective_run_eq (self : Directive) (env : BuildEnvironment)
    (id : string) (rest : list string) :
  arguments self = id :: rest ->
  let s :=
    mk_code_sample id
      (get_default (options self) "name" id)
      (nested_parse (content self) (content_offset self)
         (mk_container [(id ++ "-description")%string] []))
      (PyStr.split (get_default (options self) "relevant-api" ""))
      (docname env) in
  CodeSampleDirective.run self env
  = (Ok [mk_CodeSampleNode id (cs_name s) [cs_description s]],
     mk_env (docname env)
       (ZephyrDomain.add_code_sample (zephyr env) s)
       (PyDict.setitem (metadata env) (docname env)
          (PyDict.setitem (get_default (metadata env) (docname env) PyDict.empty)
             "orphan" true))
       (reread_always env)
       (logger env
        ++ match PyDict.get (code_samples (zephyr env)) id with
           | Some other =>
               [mk_LogRecord "WARNING"
                  ("Code sample " ++ id ++ " already exists. "
                     ++ "Other instance in " ++ cs_docname other)%string
                  (docname env, lineno self)]
           | None => []
           end)).
Proof.
  intros Hargs. cbv zeta.
  unfold CodeSampleDirective.run, bind, lift, gets, ret, set_metadata,
    with_zephyr, modify.
  rewrite Hargs. cbn [index0 docname zephyr metadata reread_always logger].
  unfold PyDict.contains, PyDict.getitem.
  destruct (PyDict.get (code_samples (zephyr env)) id) as [other|] eqn:E.
  - reflexivity.
  - cbn. now rewrite app_nil_r.
Qed.

(** C2. A registration under an id that is in the registry appends one
    warning to the log, naming the document of the sample registered
    before; the run ends without an exception and the registry then holds
    under that id the sample just declared: its name is the [name] option
    or else the id, its document is the one being read, its description
    is the node built for this directive, the child of the node returned,
    and its API groups are those of the [relevant-api] option.  A
    registration under a fresh id leaves the log as it is. *)
Theorem duplicate_registration_warns_once (self : Directive) (env : BuildEnvironment)
    (id : string) (rest : list string) :
  arguments self = id :: rest ->
  exists node env' s,
    CodeSampleDirective.run self env = (Ok [node], env')
    /\ PyDict.get (code_samples (zephyr env')) id = Some s
    /\ cs_id s = id
    /\ cs_docname s = docname env
    /\ cs_name s = get_default (options self) "name" id
    /\ csn_id node = id
    /\ csn_name node = cs_name s
    /\ csn_children node = [cs_description s]
    /\ container_ids (cs_description s) = [(id ++ "-description")%string]
    /\ (is_ascii (get_default (options self) "relevant-api" "") = true ->
        cs_relevant_api s = PyStr.split (get_default (options self) "relevant-api" ""))
    /\ logger env'
       = logger env
         ++ match PyDict.get (code_samples (zephyr env)) id with
            | Some other =>
                [mk_LogRecord "WARNING"
                   ("Code sample " ++ id ++ " already exists. Other instance in "
                      ++ cs_docname other)%string
                   (docname env, lineno self)]
            | None => []
            end.
Proof.
  intros Hargs.
  do 3 eexists. split; [apply (CodeSampleDirective_run_eq self env Hargs)|].
  cbn [zephyr logger code_samples ZephyrDomain.add_code_sample cs_id cs_docname
       cs_name cs_description cs_relevant_api csn_id csn_name csn_children].
  rewrite get_setitem, String.eqb_refl.
  split; [reflexivity|].
  cbn [cs_id cs_docname cs_name cs_description cs_relevant_api].
  split; [reflexivity|]. split; [reflexivity|]. split; [reflexivity|].
  split; [reflexivity|]. split; [reflexivity|]. split; [reflexivity|].
  split; [reflexivity|]. split; [intros _; reflexivity|reflexivity].
Qed.

(** C8. The sample registered by a directive without the [name] option
    has its id as name, and the sample registered by a directive without
    the [relevant-api] option has an empty list of relevant APIs. *)
Theorem sample_defaults (self : Directive) (env : BuildEnvironment)
    (id : string) (rest : list string) :
  arguments self = id :: rest ->
  exists nodes env' s,
    CodeSampleDirective.run self env = (Ok nodes, env')
    /\ PyDict.get (code_samples (zephyr env')) id = Some s
    /\ (PyDict.get (options self) "name" = None -> cs_name s = id)
    /\ (PyDict.get (options self) "relevant-api" = None -> cs_relevant_api s = []).
Proof.
  intros Hargs.
  do 3 eexists. split; [apply (CodeSampleDirective_run_eq self env Hargs)|].
  cbn [zephyr code_samples ZephyrDomain.add_code_sample cs_id cs_name cs_relevant_api].
  rewrite get_setitem, String.eqb_refl.
  split; [reflexivity|]. unfold get_default. split; intros ->; reflexivity.
Qed.

(* ================================================================== *)
(** ** Cross-references *)
(* ================================================================== *)

(** C4. A [code-sample] reference to a registered id resolves to a link
    to the sample's document and id whose text is the sample's name, or
    the text of the reference when it was given explicitly; a reference to
    an id that is not registered resolves to nothing. *)
Theorem resolve_xref_display_text (data : domaindata)
    (fromdocname builder target : string) (node : pending_xref) (contnode : Node) :
  match PyDict.get (code_samples data) target with
  | Some s =>
      exists r,
        ZephyrDomain.resolve_xref data fromdocname builder "code-sample" target
          node contnode = Some r
        /\ display_text r
           = (if ZephyrDomain.truthy (refexplicit node)
              then node_astext contnode
              else cs_name s)
        /\ ref_todocname r = cs_docname s
        /\ ref_targetid r = cs_id s
  | None =>
      ZephyrDomain.resolve_xref data fromdocname builder "code-sample" target
        node contnode = None
  end.
Proof.
  unfold ZephyrDomain.resolve_xref. cbn [String.eqb Ascii.eqb Bool.eqb].
  destruct (PyDict.get (code_samples data) target) as [s|]; [|reflexivity].
  eexists. split; [reflexivity|].
  destruct (ZephyrDomain.truthy (refexplicit node)); repeat split; reflexivity.
Qed.

(* ================================================================== *)
(** ** Listings *)
(* ================================================================== *)


(** The run of the listing directive in closed form. *)
Lemma CodeSampleListingDirective_run_eq (self : Directive) (env : BuildEnvironment) :
  let samples := PyDict.values (code_samples (zephyr env)) in
  let shown := CodeSampleListingDirective.in_hierarchy (docname env) in
  exists env',
    CodeSampleListingDirective.run self env
    = (Ok (CodeSampleListingDirective.mk_output
             (map sample_dli (sorted name_key (filter shown samples)))
             (mk_toctree 1 true false (docname env)
                (map (fun s => (cs_name s, cs_docname s))
                     (filter shown (sorted name_key samples)))
                (map cs_docname (filter shown (sorted name_key samples))))
             mk_CodeSampleListingNode),
       env').
Proof. cbv zeta. eexists. reflexivity. Qed.



Lemma in_hierarchy_same_docname (listing : string) (s s' : code_sample) :
  cs_docname s = cs_docname s' ->
  CodeSampleListingDirective.in_hierarchy listing s
  = CodeSampleListingDirective.in_hierarchy listing s'.
Proof.
  unfold CodeSampleListingDirective.in_hierarchy. now intros ->.
Qed.

(** C10. A registered sample is in the definition list and in the table
    of contents of a listing exactly when the directory of the listing
    document is a string prefix of the directory of the sample's document;
    so the samples of the listing's own directory are always in, and a
    listing in [samples/basic] takes in a sample of [samples/basicXYZ]. *)
Theorem listing_filter_is_string_prefix :
  (forall (self : Directive) (env : BuildEnvironment),
     exists out env' listed,
       CodeSampleListingDirective.run self env = (Ok out, env')
       /\ CodeSampleListingDirective.out_dl out = map sample_dli listed
       /\ forall s,
            In s (PyDict.values (code_samples (zephyr env))) ->
            (In s listed
             <-> String.prefix (posixpath.dirname (docname env))
                               (posixpath.dirname (cs_docname s)) = true)
            /\ (In (cs_docname s)
                   (includefiles (CodeSampleListingDirective.out_toctree out))
                <-> String.prefix (posixpath.dirname (docname env))
                                  (posixpath.dirname (cs_docname s)) = true)
            /\ (posixpath.dirname (cs_docname s) = posixpath.dirname (docname env) ->
                In s listed
                /\ In (cs_docname s)
                      (includefiles (CodeSampleListingDirective.out_toctree out))))
  /\ (posixpath.dirname "samples/basic/index" = "samples/basic"
      /\ posixpath.dirname (cs_docname foo) = "samples/basicXYZ"
      /\ forall self : Directive,
         exists out env',
           CodeSampleListingDirective.run self
             (env_at "samples/basic/index" (register_all [foo; uart_echo; blinky]))
           = (Ok out, env')
           /\ dl_names (CodeSampleListingDirective.out_dl out) = ["Blinky"; "Foo"]
           /\ includefiles (CodeSampleListingDirective.out_toctree out)
              = ["samples/basic/blinky"; "samples/basicXYZ/foo"]).
Proof.
  split.
  - intros self env.
    destruct (CodeSampleListingDirective_run_eq self env) as [env' Hrun].
    cbv zeta in Hrun.
    eexists. exists env'.
    exists (sorted name_key
              (filter (CodeSampleListingDirective.in_hierarchy (docname env))
                      (PyDict.values (code_samples (zephyr env))))).
    split; [exact Hrun|].
    cbn [CodeSampleListingDirective.out_dl CodeSampleListingDirective.out_toctree
         includefiles].
    split; [reflexivity|].
    intros s Hs.
    assert (Hdl : In s (sorted name_key
                     (filter (CodeSampleListingDirective.in_hierarchy (docname env))
                             (PyDict.values (code_samples (zephyr env)))))
                  <-> String.prefix (posixpath.dirname (docname env))
                                    (posixpath.dirname (cs_docname s)) = true).
    { rewrite sorted_In, filter_In.
      unfold CodeSampleListingDirective.in_hierarchy, PyStr.startswith. tauto. }
    assert (Htoc : In (cs_docname s)
                     (map cs_docname
                        (filter (CodeSampleListingDirective.in_hierarchy (docname env))
                           (sorted name_key
                              (PyDict.values (code_samples (zephyr env))))))
                   <-> String.prefix (posixpath.dirname (docname env))
                                     (posixpath.dirname (cs_docname s)) = true).
    { rewrite in_map_iff. split.
      - intros [s' [Hdoc Hs']]. apply filter_In in Hs'. destruct Hs' as [_ Hh].
        rewrite (in_hierarchy_same_docname (docname env) s' s Hdoc) in Hh. exact Hh.
      - intros Hp. exists s. split; [reflexivity|].
        apply filter_In. split; [now apply sorted_In|exact Hp]. }
    split; [exact Hdl|]. split; [exact Htoc|].
    intros Hsame. rewrite Hdl, Htoc, Hsame. split; apply prefix_refl.
  - split; [reflexivity|]. split; [reflexivity|].
    intros self.
    destruct (CodeSampleListingDirective_run_eq self
                (env_at "samples/basic/index" (register_all [foo; uart_echo; blinky])))
      as [env' Hrun].
    cbv zeta in Hrun.
    eexists. exists env'. split; [exact Hrun|].
    split; reflexivity.
Qed.

(* ================================================================== *)
(** ** The theorems on sample data *)
(* ================================================================== *)

Ltac distinct_keys :=
  unfold PyDict.wf; cbn;
  repeat (constructor; [cbn; intuition discriminate|]); constructor.

Ltac no_common_key :=
  let k := fresh "k" in
  let H1 := fresh "H" in
  let H2 := fresh "H" in
  intros k H1 H2; cbn in H1, H2;
  intuition (subst; discriminate).

Lemma register_last_write_witness :
  PyDict.get (code_samples (register_all [blinky; abc; blinky_moved])) "blinky"
  = Some blinky_moved
  /\ cs_id blinky_moved = "blinky"
  /\ In blinky_moved [blinky; abc; blinky_moved]
  /\ PyDict.len (code_samples (register_all [blinky; abc; blinky_moved])) = 2.
Proof.
  destruct (register_last_write_wins [blinky; abc; blinky_moved])
    as (_ & _ & Hlen & Hget & Hpayload).
  assert (Hb : PyDict.get (code_samples (register_all [blinky; abc; blinky_moved]))
                 "blinky" = Some blinky_moved).
  { rewrite Hget. reflexivity. }
  split; [exact Hb|].
  split; [exact (proj1 (Hpayload "blinky" blinky_moved Hb))|].
  split; [exact (proj2 (Hpayload "blinky" blinky_moved Hb))|].
  rewrite Hlen. reflexivity.
Defined.

Lemma clear_doc_witness :
  In ("blinky", blinky) (PyDict.items (code_samples (register_all [blinky; abc; uart_echo])))
  /\ cs_docname blinky <> "samples/basic/abc"
  /\ In ("blinky", blinky)
        (PyDict.items
           (code_samples
              (ZephyrDomain.clear_doc (register_all [blinky; abc; uart_echo])
                 "samples/basic/abc")))
  /\ ~ In ("abc", abc)
         (PyDict.items
            (code_samples
               (ZephyrDomain.clear_doc (register_all [blinky; abc; uart_echo])
                  "samples/basic/abc"))).
Proof.
  destruct (clear_doc_removes_exactly (register_all [blinky; abc; uart_echo])
              "samples/basic/abc") as (_ & _ & Hin).
  assert (H1 : In ("blinky", blinky)
                 (PyDict.items (code_samples (register_all [blinky; abc; uart_echo]))))
    by (left; reflexivity).
  assert (H2 : cs_docname blinky <> "samples/basic/abc") by discriminate.
  split; [exact H1|]. split; [exact H2|]. split.
  - exact (proj2 (Hin "blinky" blinky) (conj H1 H2)).
  - intros Habc. apply (proj1 (Hin "abc" abc)) in Habc.
    exact (proj2 Habc eq_refl).
Defined.

Lemma duplicate_registration_witness :
  arguments redeclare_blinky = "blinky" :: []
  /\ is_ascii (get_default (options redeclare_blinky) "relevant-api" "") = true
  /\ PyDict.get (code_samples (register_all [blinky])) "blinky" = Some blinky
  /\ exists node env' s,
       CodeSampleDirective.run redeclare_blinky
         (env_at "samples/other/blinky" (register_all [blinky]))
       = (Ok [node], env')
       /\ PyDict.get (code_samples (zephyr env')) "blinky" = Some s
       /\ cs_docname s = "samples/other/blinky"
       /\ cs_name s = "blinky"
       /\ csn_children node = [cs_description s]
       /\ cs_relevant_api s = []
       /\ s <> blinky
       /\ logger env'
          = [mk_LogRecord "WARNING"
               "Code sample blinky already exists. Other instance in samples/basic/blinky"
               ("samples/other/blinky", 7)].
Proof.
  split; [reflexivity|]. split; [reflexivity|]. split; [reflexivity|].
  destruct (duplicate_registration_warns_once redeclare_blinky
              (env_at "samples/other/blinky" (register_all [blinky]))
              (id := "blinky") (rest := []) eq_refl)
    as (node & env' & s & Hrun & Hget & Hid & Hdoc & Hname & _ & _ & Hchild & _
        & Hapi & Hlog).
  exists node, env', s.
  split; [exact Hrun|]. split; [exact Hget|]. split; [exact Hdoc|].
  split; [exact Hname|]. split; [exact Hchild|]. split; [exact (Hapi eq_refl)|].
  split; [|exact Hlog].
  intros Heq. rewrite Heq in Hdoc. discriminate Hdoc.
Defined.

Lemma sample_defaults_witness :
  arguments redeclare_blinky = "blinky" :: []
  /\ PyDict.get (options redeclare_blinky) "name" = None
  /\ PyDict.get (options redeclare_blinky) "relevant-api" = None
  /\ exists nodes env' s,
       CodeSampleDirective.run redeclare_blinky
         (env_at "samples/other/blinky" ZephyrDomain.initial_data)
       = (Ok nodes, env')
       /\ PyDict.get (code_samples (zephyr env')) "blinky" = Some s
       /\ cs_name s = "blinky"
       /\ cs_relevant_api s = [].
Proof.
  split; [reflexivity|]. split; [reflexivity|]. split; [reflexivity|].
  destruct (sample_defaults redeclare_blinky
              (env_at "samples/other/blinky" ZephyrDomain.initial_data)
              (id := "blinky") (rest := []) eq_refl)
    as (nodes & env' & s & Hrun & Hget & Hname & Hapi).
  exists nodes, env', s.
  split; [exact Hrun|]. split; [exact Hget|].
  split; [apply Hname|apply Hapi]; reflexivity.
Defined.

Lemma merge_is_union_witness :
  PyDict.wf (code_samples shard_b)
  /\ PyDict.wf (code_samples_categories shard_b)
  /\ PyDict.disjoint (code_samples shard_a) (code_samples shard_b)
  /\ PyDict.disjoint (code_samples_categories shard_a) (code_samples_categories shard_b)
  /\ PyDict.len (code_samples (ZephyrDomain.merge_domaindata shard_a [] shard_b)) = 2 + 2
  /\ PyDict.len (code_samples_categories (ZephyrDomain.merge_domaindata shard_a [] shard_b))
     = 1 + 1.
Proof.
  assert (Hs : PyDict.wf (code_samples shard_b)) by distinct_keys.
  assert (Hc : PyDict.wf (code_samples_categories shard_b)) by distinct_keys.
  assert (Hds : PyDict.disjoint (code_samples shard_a) (code_samples shard_b))
    by no_common_key.
  assert (Hdc : PyDict.disjoint (code_samples_categories shard_a)
                                (code_samples_categories shard_b))
    by no_common_key.
  destruct (@merge_is_union_incoming_wins shard_a shard_b [] Hs Hc)
    as [(_ & _ & Hlen_s) (_ & _ & Hlen_c)].
  split; [exact Hs|]. split; [exact Hc|]. split; [exact Hds|]. split; [exact Hdc|].
  split.
  - exact (Hlen_s Hds).
  - exact (Hlen_c Hdc).
Defined.

Lemma merge_commutes_witness :
  PyDict.wf (code_samples shard_a)
  /\ PyDict.wf (code_samples shard_b)
  /\ PyDict.disjoint (code_samples shard_a) (code_samples shard_b)
  /\ PyDict.eq (code_samples (ZephyrDomain.merge_domaindata shard_a [] shard_b))
               (code_samples (ZephyrDomain.merge_domaindata shard_b [] shard_a))
  /\ PyDict.eq (code_samples_categories (ZephyrDomain.merge_domaindata shard_a [] shard_b))
               (code_samples_categories (ZephyrDomain.merge_domaindata shard_b [] shard_a)).
Proof.
  assert (Ha : PyDict.wf (code_samples shard_a)) by distinct_keys.
  assert (Hb : PyDict.wf (code_samples shard_b)) by distinct_keys.
  assert (Hds : PyDict.disjoint (code_samples shard_a) (code_samples shard_b))
    by no_common_key.
  assert (Hca : PyDict.wf (code_samples_categories shard_a)) by distinct_keys.
  assert (Hcb : PyDict.wf (code_samples_categories shard_b)) by distinct_keys.
  assert (Hdc : PyDict.disjoint (code_samples_categories shard_a)
                                (code_samples_categories shard_b))
    by no_common_key.
  destruct (@merge_commutes_on_disjoint_shards shard_a shard_b [] [] Ha Hb Hds) as (Heq & _ & Hcat).
  split; [exact Ha|]. split; [exact Hb|]. split; [exact Hds|].
  split; [exact Heq|].
  exact (proj1 (Hcat Hca Hcb Hdc)).
Defined.



Lemma listing_filter_witness :
  In foo (PyDict.values (code_samples (register_all [foo; uart_echo; blinky])))
  /\ posixpath.dirname (cs_docname blinky) = posixpath.dirname "samples/basic/index"
  /\ exists out env' listed,
       CodeSampleListingDirective.run listing_directive
         (env_at "samples/basic/index" (register_all [foo; uart_echo; blinky]))
       = (Ok out, env')
       /\ CodeSampleListingDirective.out_dl out = map sample_dli listed
       /\ In foo listed
       /\ In blinky listed
       /\ ~ In uart_echo listed.
Proof.
  split; [left; reflexivity|]. split; [reflexivity|].
  destruct (proj1 listing_filter_is_string_prefix listing_directive
              (env_at "samples/basic/index" (register_all [foo; uart_echo; blinky])))
    as (out & env' & listed & Hrun & Hdl & Hs).
  exists out, env', listed.
  split; [exact Hrun|]. split; [exact Hdl|].
  split; [|split].
  - apply (proj2 (proj1 (Hs foo (or_introl eq_refl)))). reflexivity.
  - exact (proj1 (proj2 (proj2 (Hs blinky (or_intror (or_intror (or_introl eq_refl)))))
                    eq_refl)).
  - intros Hin.
    apply (proj1 (proj1 (Hs uart_echo (or_intror (or_introl eq_refl))))) in Hin.
    discriminate Hin.
Defined.

(* ================================================================== *)
(** ** The registry invariant *)
(* ================================================================== *)

Section KeyedFacts.

Variable V : Type.
Variable P : string * V -> Prop.

Lemma Forall_setitem (d : PyDict.dict V) (k : string) (v : V) :
  Forall P d -> P (k, v) -> Forall P (PyDict.setitem d k v).
Proof.
  intros Hd Hkv. induction Hd as [|[k0 v0] r H0 Hr IH]; simpl.
  - now constructor.
  - destruct (k0 =? k) eqn:E.
    + apply String.eqb_eq in E. subst. now constructor.
    + now constructor.
Qed.

Lemma Forall_update (d other : PyDict.dict V) :
  Forall P d -> Forall P other -> Forall P (PyDict.update d other).
Proof.
  unfold PyDict.update, PyDict.items. intros Hd Ho. revert d Hd.
  induction Ho as [|[k v] r Hkv Hr IH]; simpl; intros d Hd; [assumption|].
  apply IH. now apply Forall_setitem.
Qed.

Lemma Forall_comprehension_if (p : string -> V -> bool) (d : PyDict.dict V) :
  Forall P d -> Forall P (PyDict.comprehension_if p d).
Proof.
  unfold PyDict.comprehension_if, PyDict.items. rewrite !Forall_forall.
  intros Hd x Hx. apply filter_In in Hx. now apply Hd.
Qed.

End KeyedFacts.

Lemma registry_ok_add_code_sample (data : domaindata) (s : code_sample) :
  registry_ok data -> registry_ok (ZephyrDomain.add_code_sample data s).
Proof.
  intros (Hwf & Hkeyed & Hcat). unfold registry_ok, ZephyrDomain.add_code_sample.
  cbn [code_samples code_samples_categories].
  split; [now apply wf_setitem|]. split; [|exact Hcat].
  now apply Forall_setitem.
Qed.

Lemma registry_ok_get (data : domaindata) (s : code_sample) :
  registry_ok data ->
  In s (PyDict.values (code_samples data)) ->
  PyDict.get (code_samples data) (cs_id s) = Some s.
Proof.
  intros (Hwf & Hkeyed & _) Hin.
  unfold PyDict.values in Hin. apply in_map_iff in Hin.
  destruct Hin as [[k v] [Hv Hin]]. simpl in Hv. subst v.
  rewrite Forall_forall in Hkeyed. specialize (Hkeyed _ Hin). simpl in Hkeyed.
  rewrite Hkeyed. now apply In_get_wf.
Qed.

(** X1. The registry stays well formed: from the empty registry on, every
    operation of the domain and both registering directives keep the ids
    and the category names distinct and every sample under its own id. *)
Theorem registry_invariant :
  registry_ok ZephyrDomain.initial_data
  /\ (forall data s, registry_ok data -> registry_ok (ZephyrDomain.add_code_sample data s))
  /\ (forall data name description,
        registry_ok data ->
        registry_ok (ZephyrDomain.add_code_sample_category data name description))
  /\ (forall data d, registry_ok data -> registry_ok (ZephyrDomain.clear_doc data d))
  /\ (forall data docnames otherdata,
        registry_ok data -> registry_ok otherdata ->
        registry_ok (ZephyrDomain.merge_domaindata data docnames otherdata))
  /\ (forall self env,
        registry_ok (zephyr env) ->
        registry_ok (zephyr (snd (CodeSampleDirective.run self env)))
        /\ registry_ok (zephyr (snd (CodeSampleCategoryDirective.run self env)))
        /\ zephyr (snd (CodeSampleListingDirective.run self env)) = zephyr env).
Proof.
  split; [|split; [|split; [|split; [|split]]]].
  - repeat split; constructor.
  - apply registry_ok_add_code_sample.
  - intros data name description (Hwf & Hkeyed & Hcat).
    unfold registry_ok, ZephyrDomain.add_code_sample_category.
    cbn [code_samples code_samples_categories].
    split; [exact Hwf|]. split; [exact Hkeyed|]. now apply wf_setitem.
  - intros data d (Hwf & Hkeyed & Hcat).
    unfold registry_ok, ZephyrDomain.clear_doc.
    cbn [code_samples code_samples_categories].
    split; [now apply wf_comprehension_if|]. split; [|exact Hcat].
    now apply Forall_comprehension_if.
  - intros data docnames otherdata (Hwf & Hkeyed & Hcat) (Hwf' & Hkeyed' & Hcat').
    unfold registry_ok, ZephyrDomain.merge_domaindata.
    cbn [code_samples code_samples_categories].
    split; [now apply wf_update|]. split; [|now apply wf_update].
    now apply Forall_update.
  - intros self env Hok. split; [|split].
    + destruct (arguments self) as [|id rest] eqn:Hargs.
      * unfold CodeSampleDirective.run, bind, lift. rewrite Hargs. exact Hok.
      * rewrite (CodeSampleDirective_run_eq self env Hargs).
        cbn [snd zephyr]. now apply registry_ok_add_code_sample.
    + unfold CodeSampleCategoryDirective.run, bind, lift, with_zephyr, modify, ret.
      destruct (arguments self) as [|name rest]; [exact Hok|].
      cbn [index0 snd zephyr].
      destruct Hok as (Hwf & Hkeyed & Hcat).
      unfold registry_ok, ZephyrDomain.add_code_sample_category.
      cbn [code_samples code_samples_categories].
      split; [exact Hwf|]. split; [exact Hkeyed|]. now apply wf_setitem.
    + reflexivity.
Qed.

Lemma registry_invariant_witness :
  registry_ok shard_a
  /\ registry_ok shard_b
  /\ registry_ok (ZephyrDomain.clear_doc
                    (ZephyrDomain.merge_domaindata shard_a [] shard_b)
                    "samples/basic/abc")
  /\ registry_ok
       (zephyr (snd (CodeSampleDirective.run redeclare_blinky
                       (env_at "samples/other/blinky" shard_a)))).
Proof.
  destruct registry_invariant as (H0 & Hadd & Hcat & Hclear & Hmerge & Hrun).
  assert (Ha : registry_ok shard_a).
  { apply Hcat. unfold register_all. cbn [fold_left]. now repeat apply Hadd. }
  assert (Hb : registry_ok shard_b).
  { apply Hcat. unfold register_all. cbn [fold_left]. now repeat apply Hadd. }
  split; [exact Ha|]. split; [exact Hb|]. split.
  - apply Hclear. now apply Hmerge.
  - apply (Hrun redeclare_blinky (env_at "samples/other/blinky" shard_a)). exact Ha.
Defined.

(* ================================================================== *)
(** ** More on clearing a document *)
(* ================================================================== *)

Lemma filter_idem {A} (f : A -> bool) (l : list A) :
  filter f (filter f l) = filter f l.
Proof.
  induction l as [|x r IH]; simpl; [reflexivity|].
  destruct (f x) eqn:E; simpl; [|exact IH]. now rewrite E, IH.
Qed.

Lemma filter_comm {A} (f g : A -> bool) (l : list A) :
  filter f (filter g l) = filter g (filter f l).
Proof.
  induction l as [|x r IH]; simpl; [reflexivity|].
  destruct (g x) eqn:Eg, (f x) eqn:Ef; simpl; rewrite ?Eg, ?Ef, IH; reflexivity.
Qed.

Lemma filter_all {A} (f : A -> bool) (l : list A) :
  (forall x, In x l -> f x = true) -> filter f l = l.
Proof.
  induction l as [|x r IH]; simpl; intros H; [reflexivity|].
  rewrite (H x (or_introl eq_refl)). f_equal. apply IH. intros y Hy. apply H. now right.
Qed.

(** X2. After [clear_doc d] no registered sample belongs to [d]; clearing
    the same document again changes nothing, two documents can be cleared
    in either order, and clearing a document that declares no sample
    leaves the data as they are. *)
Theorem clear_doc_algebra (data : domaindata) (d d' : string) :
  Forall (fun s => cs_docname s <> d)
         (PyDict.values (code_samples (ZephyrDomain.clear_doc data d)))
  /\ ZephyrDomain.clear_doc (ZephyrDomain.clear_doc data d) d
     = ZephyrDomain.clear_doc data d
  /\ ZephyrDomain.clear_doc (ZephyrDomain.clear_doc data d) d'
     = ZephyrDomain.clear_doc (ZephyrDomain.clear_doc data d') d
  /\ ((forall s, In s (PyDict.values (code_samples data)) -> cs_docname s <> d) ->
      ZephyrDomain.clear_doc data d = data).
Proof.
  unfold ZephyrDomain.clear_doc, PyDict.comprehension_if, PyDict.items, PyDict.values.
  cbn [code_samples code_samples_categories].
  split; [|split; [|split]].
  - rewrite Forall_forall. intros s Hs. apply in_map_iff in Hs.
    destruct Hs as [[k v] [<- Hin]]. apply filter_In in Hin. simpl in *.
    destruct Hin as [_ Hd]. now apply negb_true_iff, String.eqb_neq in Hd.
  - now rewrite filter_idem.
  - now rewrite filter_comm.
  - intros Hnone. destruct data as [samples categories]. cbn [code_samples code_samples_categories] in *.
    f_equal. apply filter_all. intros [k v] Hin. simpl.
    apply negb_true_iff, String.eqb_neq. apply Hnone.
    apply in_map_iff. now exists (k, v).
Qed.

Lemma clear_doc_algebra_witness :
  (forall s, In s (PyDict.values (code_samples shard_a)) ->
             cs_docname s <> "samples/drivers/uart/echo")
  /\ ZephyrDomain.clear_doc shard_a "samples/drivers/uart/echo" = shard_a.
Proof.
  assert (H : forall s, In s (PyDict.values (code_samples shard_a)) ->
                        cs_docname s <> "samples/drivers/uart/echo").
  { intros s Hs. cbn in Hs. destruct Hs as [<- | [<- | []]]; discriminate. }
  split; [exact H|].
  exact (proj2 (proj2 (proj2 (clear_doc_algebra shard_a "samples/drivers/uart/echo" ""))) H).
Defined.

Lemma flat_map_agree {A B} (f g : A -> list B) (l : list A) :
  (forall x, In x l -> f x = g x) -> flat_map f l = flat_map g l.
Proof.
  induction l as [|x r IH]; intros H; [reflexivity|].
  cbn [flat_map]. rewrite (H x (or_introl eq_refl)). f_equal.
  apply IH. intros y Hy. apply H. now right.
Qed.

(** The directives of one read, with distinct ids: each warns exactly
    when its id was in the registry before the read began. *)
Lemma read_directives_log (declared : list (Directive * string)) :
  forall env0,
    Forall (fun d => exists rest, arguments (fst d) = snd d :: rest) declared ->
    NoDup (map snd declared) ->
    docname (read_directives (map fst declared) env0) = docname env0
    /\ logger (read_directives (map fst declared) env0)
       = logger env0
         ++ flat_map
              (fun d =>
                 match PyDict.get (code_samples (zephyr env0)) (snd d) with
                 | Some other =>
                     [duplicate_warning (snd d) other (docname env0, lineno (fst d))]
                 | None => []
                 end)
              declared.
Proof.
  induction declared as [|[self id] more IH]; intros env0 Hargs Hids.
  - cbn. now rewrite app_nil_r.
  - inversion Hargs as [|? ? [rest Hself] Hmore]; subst.
    cbn [map fst snd] in Hids, Hself. inversion Hids as [|? ? Hfresh Hids']; subst.
    unfold read_directives in *. cbn [map fst fold_left].
    destruct (IH (snd (CodeSampleDirective.run self env0)) Hmore Hids') as [Hdoc Hlog].
    rewrite Hdoc, Hlog. clear Hdoc Hlog.
    rewrite (CodeSampleDirective_run_eq self env0 Hself).
    cbn [snd docname logger zephyr ZephyrDomain.add_code_sample code_samples cs_id
         flat_map].
    split; [reflexivity|].
    rewrite <- app_assoc. f_equal. f_equal.
    apply flat_map_agree. intros [self' id'] Hin. cbn [fst snd].
    rewrite get_setitem.
    destruct (id =? id') eqn:E; [|reflexivity].
    apply String.eqb_eq in E. subst id'. exfalso. apply Hfresh.
    apply in_map_iff. now exists (self', id).
Qed.

(** X3. Reading a document again after [clear_doc]: when its
    [code-sample] directives declare pairwise distinct ids, a directive
    warns exactly when the id was declared before by another document, so
    none of them collides with what this document declared before it was
    cleared.  A document that declares one id twice does collide with
    itself: the second directive warns, naming the document being read. *)
Theorem reread_after_clear_doc (env : BuildEnvironment) :
  let cleared :=
    with_data env (ZephyrDomain.clear_doc (zephyr env) (docname env)) in
  (forall declared : list (Directive * string),
     Forall (fun d => exists rest, arguments (fst d) = snd d :: rest) declared ->
     NoDup (map snd declared) ->
     PyDict.wf (code_samples (zephyr env)) ->
     logger (read_directives (map fst declared) cleared)
     = logger env
       ++ flat_map
            (fun d =>
               match PyDict.get (code_samples (zephyr env)) (snd d) with
               | Some other =>
                   if (cs_docname other =? docname env) then []
                   else [duplicate_warning (snd d) other (docname env, lineno (fst d))]
               | None => []
               end)
            declared)
  /\ (forall (first second : Directive) (id : string) (rest rest' : list string),
        arguments first = id :: rest ->
        arguments second = id :: rest' ->
        exists other,
          cs_docname other = docname env
          /\ logger (read_directives [first; second] cleared)
             = logger (read_directives [first] cleared)
               ++ [duplicate_warning id other (docname env, lineno second)]).
Proof.
  cbv zeta. split.
  - intros declared Hargs Hids Hwf.
    destruct (@read_directives_log declared
                (with_data env (ZephyrDomain.clear_doc (zephyr env) (docname env)))
                Hargs Hids) as [_ Hlog].
    rewrite Hlog. cbn [with_data logger zephyr docname]. f_equal.
    apply flat_map_agree. intros [self id] _. cbn [fst snd].
    destruct (get_clear_doc (zephyr env) (docname env) id Hwf) as [_ Hget].
    rewrite Hget.
    destruct (PyDict.get (code_samples (zephyr env)) id) as [other|]; [|reflexivity].
    now destruct (cs_docname other =? docname env).
  - intros first second id rest rest' Hfirst Hsecond.
    unfold read_directives. cbn [fold_left].
    rewrite (CodeSampleDirective_run_eq second _ Hsecond).
    rewrite (CodeSampleDirective_run_eq first _ Hfirst).
    cbn [snd logger zephyr docname with_data ZephyrDomain.add_code_sample
         code_samples cs_id].
    rewrite get_setitem, String.eqb_refl.
    eexists. split; [|reflexivity]. reflexivity.
Qed.

Lemma reread_after_clear_doc_witness :
  Forall (fun d => exists rest, arguments (fst d) = snd d :: rest)
         [(redeclare_blinky, "blinky"); (declare_abc, "abc");
          (declare_blinky_pwm, "blinky_pwm")]
  /\ NoDup ["blinky"; "abc"; "blinky_pwm"]
  /\ PyDict.wf (code_samples shard_a)
  /\ logger (read_directives [redeclare_blinky; declare_abc; declare_blinky_pwm]
               (with_data (env_at "samples/basic/blinky" shard_a)
                  (ZephyrDomain.clear_doc shard_a "samples/basic/blinky")))
     = [duplicate_warning "abc" abc ("samples/basic/blinky", 9)]
  /\ exists other,
       cs_docname other = "samples/basic/blinky"
       /\ logger (read_directives [redeclare_blinky; redeclare_blinky]
                    (with_data (env_at "samples/basic/blinky" shard_a)
                       (ZephyrDomain.clear_doc shard_a "samples/basic/blinky")))
          = [duplicate_warning "blinky" other ("samples/basic/blinky", 7)].
Proof.
  assert (Hargs : Forall (fun d => exists rest, arguments (fst d) = snd d :: rest)
                    [(redeclare_blinky, "blinky"); (declare_abc, "abc");
                     (declare_blinky_pwm, "blinky_pwm")]).
  { repeat constructor; exists []; reflexivity. }
  assert (Hids : NoDup ["blinky"; "abc"; "blinky_pwm"]).
  { repeat (constructor; [cbn; intuition discriminate|]). constructor. }
  assert (Hwf : PyDict.wf (code_samples shard_a)) by distinct_keys.
  destruct (reread_after_clear_doc (env_at "samples/basic/blinky" shard_a))
    as [Hdistinct Htwice].
  split; [exact Hargs|]. split; [exact Hids|]. split; [exact Hwf|]. split.
  - exact (Hdistinct [(redeclare_blinky, "blinky"); (declare_abc, "abc");
                      (declare_blinky_pwm, "blinky_pwm")] Hargs Hids Hwf).
  - destruct (Htwice redeclare_blinky redeclare_blinky "blinky" [] [] eq_refl eq_refl)
      as (other & Hdoc & Hlog).
    exists other. split; [exact Hdoc|exact Hlog].
Defined.

(** X4. [clear_doc d] makes the references to the samples of [d]
    dangling and leaves every other resolution as it was. *)
Theorem resolve_xref_after_clear_doc (data : domaindata) (d : string)
    (fromdocname builder type target : string) (node : pending_xref) (contnode : Node) :
  PyDict.wf (code_samples data) ->
  ZephyrDomain.resolve_xref (ZephyrDomain.clear_doc data d)
    fromdocname builder type target node contnode
  = match PyDict.get (code_samples data) target with
    | Some s =>
        if (cs_docname s =? d) then None
        else ZephyrDomain.resolve_xref data fromdocname builder type target node contnode
    | None => None
    end.
Proof.
  intros Hwf. unfold ZephyrDomain.resolve_xref.
  destruct (get_clear_doc data d target Hwf) as [_ Hget]. rewrite Hget.
  destruct (type =? "code-sample");
    destruct (PyDict.get (code_samples data) target) as [s|]; try reflexivity;
    destruct (cs_docname s =? d); reflexivity.
Qed.

Lemma resolve_xref_after_clear_doc_witness :
  PyDict.wf (code_samples shard_a)
  /\ ZephyrDomain.resolve_xref (ZephyrDomain.clear_doc shard_a "samples/basic/abc")
       "index" "html" "code-sample" "abc"
       (mk_pending_xref "zephyr" "code-sample" "abc" true None []) (inline "abc")
     = None.
Proof.
  assert (Hwf : PyDict.wf (code_samples shard_a)) by distinct_keys.
  split; [exact Hwf|].
  exact (resolve_xref_after_clear_doc shard_a "samples/basic/abc" "index" "html"
           "code-sample" "abc"
           (mk_pending_xref "zephyr" "code-sample" "abc" true None []) (inline "abc") Hwf).
Defined.

(* ================================================================== *)
(** ** Declaring, then resolving *)
(* ================================================================== *)

(** X5. A sample declared by the directive resolves at once: a reference
    to its id, from any document, links to the declaring document and the
    id as anchor, shows the declared name (the id when none was given)
    unless the reference has its own text, and carries as title the text
    of the description node the directive built, the child of the node it
    returned, or no title when that text is empty. *)
Theorem declare_then_resolve (self : Directive) (env : BuildEnvironment)
    (id : string) (rest : list string)
    (fromdocname builder : string) (node : pending_xref) (contnode : Node) :
  arguments self = id :: rest ->
  exists declared env' description r,
    CodeSampleDirective.run self env = (Ok [declared], env')
    /\ csn_children declared = [description]
    /\ ZephyrDomain.resolve_xref (zephyr env')
         fromdocname builder "code-sample" id node contnode = Some r
    /\ ref_fromdocname r = fromdocname
    /\ ref_todocname r = docname env
    /\ ref_targetid r = id
    /\ display_text r
       = (if ZephyrDomain.truthy (refexplicit node) then node_astext contnode
          else get_default (options self) "name" id)
    /\ reftitle r
       = (if (container_astext description =? "") then None
          else Some (container_astext description)).
Proof.
  intros Hargs.
  do 2 eexists.
  exists (nested_parse (content self) (content_offset self)
            (mk_container [(id ++ "-description")%string] [])).
  eexists.
  split; [apply (CodeSampleDirective_run_eq self env Hargs)|].
  cbn [csn_children cs_description zephyr].
  split; [reflexivity|].
  unfold ZephyrDomain.resolve_xref, ZephyrDomain.add_code_sample.
  cbn [code_samples cs_id String.eqb Ascii.eqb Bool.eqb].
  rewrite get_setitem, String.eqb_refl.
  split; [reflexivity|].
  unfold make_refnode, display_text.
  cbn [ref_fromdocname ref_todocname ref_targetid ref_children reftitle
       cs_docname cs_id cs_name cs_description].
  destruct (ZephyrDomain.truthy (refexplicit node)); repeat split; reflexivity.
Qed.

Lemma declare_then_resolve_witness :
  arguments redeclare_blinky = "blinky" :: []
  /\ exists declared env' description r,
       CodeSampleDirective.run redeclare_blinky (env_at "samples/other/blinky" shard_b)
       = (Ok [declared], env')
       /\ csn_children declared = [description]
       /\ ZephyrDomain.resolve_xref (zephyr env')
            "index" "html" "code-sample" "blinky"
            (mk_pending_xref "zephyr" "code-sample" "blinky" true None []) (inline "blinky")
          = Some r
       /\ ref_todocname r = "samples/other/blinky"
       /\ display_text r = "blinky".
Proof.
  split; [reflexivity|].
  destruct (declare_then_resolve redeclare_blinky (env_at "samples/other/blinky" shard_b)
              (id := "blinky") (rest := []) "index" "html"
              (mk_pending_xref "zephyr" "code-sample" "blinky" true None [])
              (inline "blinky") eq_refl)
    as (declared & env' & description & r & Hrun & Hchild & Hr & _ & Hto & _ & Htext & _).
  exists declared, env', description, r.
  split; [exact Hrun|]. split; [exact Hchild|]. split; [exact Hr|].
  split; [exact Hto|exact Htext].
Defined.

(** X6. [resolve_xref] answers exactly for the role [code-sample] and a
    registered target: any other role type, and any target that is not a
    key of the registry, gives no link. *)
Theorem resolve_xref_answers_iff (data : domaindata)
    (fromdocname builder type target : string) (node : pending_xref) (contnode : Node) :
  (exists r,
     ZephyrDomain.resolve_xref data fromdocname builder type target node contnode = Some r)
  <-> type = "code-sample" /\ In target (PyDict.keys (code_samples data)).
Proof.
  unfold ZephyrDomain.resolve_xref. rewrite In_keys_get.
  destruct (type =? "code-sample") eqn:Etype.
  - apply String.eqb_eq in Etype.
    destruct (PyDict.get (code_samples data) target) as [s|].
    + split; [intros _; split; [exact Etype|now exists s]|intros _; eexists; reflexivity].
    + split; [intros [r Hr]; discriminate|intros [_ [v Hv]]; discriminate].
  - apply String.eqb_neq in Etype.
    split; [intros [r Hr]; discriminate|intros [Ht _]; contradiction].
Qed.

(* ================================================================== *)
(** ** What a declaration leaves alone *)
(* ================================================================== *)

(** X7. The [code-sample] directive changes the registry at its own id
    only: every other id reads as before, an id already present keeps its
    place in the registry order and a fresh id goes last; the categories,
    the set of documents to re-read and the metadata of other documents
    are untouched, and the document being read is marked as orphan. *)
Theorem code_sample_directive_frame (self : Directive) (env : BuildEnvironment)
    (id : string) (rest : list string) :
  arguments self = id :: rest ->
  let env' := snd (CodeSampleDirective.run self env) in
  (forall id', id' <> id ->
     PyDict.get (code_samples (zephyr env')) id' = PyDict.get (code_samples (zephyr env)) id')
  /\ PyDict.keys (code_samples (zephyr env'))
     = (if PyDict.contains (code_samples (zephyr env)) id
        then PyDict.keys (code_samples (zephyr env))
        else PyDict.keys (code_samples (zephyr env)) ++ [id])
  /\ code_samples_categories (zephyr env') = code_samples_categories (zephyr env)
  /\ docname env' = docname env
  /\ reread_always env' = reread_always env
  /\ (exists m, PyDict.get (metadata env') (docname env) = Some m
                /\ PyDict.get m "orphan" = Some true)
  /\ (forall d, d <> docname env ->
        PyDict.get (metadata env') d = PyDict.get (metadata env) d).
Proof.
  intros Hargs. cbv zeta.
  rewrite (CodeSampleDirective_run_eq self env Hargs).
  cbn [snd zephyr docname reread_always metadata ZephyrDomain.add_code_sample
       code_samples code_samples_categories cs_id].
  split; [|split; [|split; [|split; [|split; [|split]]]]]; try reflexivity.
  - intros id' Hneq. rewrite get_setitem.
    destruct (id =? id') eqn:E; [|reflexivity].
    apply String.eqb_eq in E. congruence.
  - unfold PyDict.contains.
    destruct (PyDict.get (code_samples (zephyr env)) id) as [s|] eqn:E.
    + apply setitem_present. apply In_keys_get. now exists s.
    + apply get_None_iff in E. rewrite setitem_fresh by exact E.
      unfold PyDict.keys. now rewrite map_app.
  - eexists. split.
    + rewrite get_setitem, String.eqb_refl. reflexivity.
    + rewrite get_setitem. reflexivity.
  - intros d Hd. rewrite get_setitem.
    destruct (docname env =? d) eqn:E; [|reflexivity].
    apply String.eqb_eq in E. congruence.
Qed.

Lemma code_sample_directive_frame_witness :
  arguments redeclare_blinky = "blinky" :: []
  /\ "abc" <> "blinky"
  /\ PyDict.get
       (code_samples (zephyr (snd (CodeSampleDirective.run redeclare_blinky
                                     (env_at "samples/other/blinky" shard_a))))) "abc"
     = Some abc
  /\ PyDict.keys
       (code_samples (zephyr (snd (CodeSampleDirective.run redeclare_blinky
                                     (env_at "samples/other/blinky" shard_a)))))
     = ["blinky"; "abc"].
Proof.
  destruct (code_sample_directive_frame redeclare_blinky
              (env_at "samples/other/blinky" shard_a) (id := "blinky") (rest := [])
              eq_refl) as (Hget & Hkeys & _).
  assert (Hneq : "abc" <> "blinky") by discriminate.
  split; [reflexivity|]. split; [exact Hneq|]. split.
  - exact (Hget "abc" Hneq).
  - exact Hkeys.
Defined.

(** X8. The [code-sample-category] directive stores the description
    node it built, whose id is the category name followed by
    [-description], under the category name, replacing an earlier one in
    place, with no warning even when the name was taken; the other
    categories and the code samples are untouched. *)
Theorem category_directive_registers (self : Directive) (env : BuildEnvironment)
    (name : string) (rest : list string) :
  arguments self = name :: rest ->
  exists description env',
    CodeSampleCategoryDirective.run self env = (Ok [(name, description)], env')
    /\ container_ids description = [(name ++ "-description")%string]
    /\ PyDict.get (code_samples_categories (zephyr env')) name = Some description
    /\ (forall name', name' <> name ->
          PyDict.get (code_samples_categories (zephyr env')) name'
          = PyDict.get (code_samples_categories (zephyr env)) name')
    /\ PyDict.keys (code_samples_categories (zephyr env'))
       = (if PyDict.contains (code_samples_categories (zephyr env)) name
          then PyDict.keys (code_samples_categories (zephyr env))
          else PyDict.keys (code_samples_categories (zephyr env)) ++ [name])
    /\ code_samples (zephyr env') = code_samples (zephyr env)
    /\ logger env' = logger env
    /\ metadata env' = metadata env.
Proof.
  intros Hargs.
  unfold CodeSampleCategoryDirective.run, bind, lift, with_zephyr, modify, ret.
  rewrite Hargs. cbn [index0]. do 2 eexists. split; [reflexivity|].
  cbn [zephyr logger metadata ZephyrDomain.add_code_sample_category
       code_samples code_samples_categories].
  split; [reflexivity|].
  split; [|split; [|split; [|split; [|split]]]]; try reflexivity.
  - rewrite get_setitem, String.eqb_refl. reflexivity.
  - intros name' Hneq. rewrite get_setitem.
    destruct (name =? name') eqn:E; [|reflexivity].
    apply String.eqb_eq in E. congruence.
  - unfold PyDict.contains.
    destruct (PyDict.get (code_samples_categories (zephyr env)) name) as [c|] eqn:E.
    + apply setitem_present. apply In_keys_get. now exists c.
    + apply get_None_iff in E. rewrite setitem_fresh by exact E.
      unfold PyDict.keys. now rewrite map_app.
Qed.

Lemma category_directive_witness :
  arguments declare_basic = "Basic" :: []
  /\ PyDict.contains (code_samples_categories shard_a) "Basic" = true
  /\ exists description env',
       CodeSampleCategoryDirective.run declare_basic (env_at "samples/basic/index" shard_a)
       = (Ok [("Basic", description)], env')
       /\ container_ids description = ["Basic-description"]
       /\ PyDict.get (code_samples_categories (zephyr env')) "Basic" = Some description
       /\ PyDict.keys (code_samples_categories (zephyr env')) = ["Basic"]
       /\ logger env' = [].
Proof.
  split; [reflexivity|]. split; [reflexivity|].
  destruct (category_directive_registers declare_basic
              (env_at "samples/basic/index" shard_a) (name := "Basic") (rest := [])
              eq_refl)
    as (description & env' & Hrun & Hids & Hget & _ & Hkeys & _ & Hlog & _).
  exists description, env'.
  split; [exact Hrun|]. split; [exact Hids|]. split; [exact Hget|].
  split; [exact Hkeys|exact Hlog].
Defined.

(* ================================================================== *)
(** ** More on merging *)
(* ================================================================== *)

Section MergeFacts.

Variable V : Type.
Implicit Types (a b c : PyDict.dict V).

Lemma setitem_same a (k : string) (v : V) :
  PyDict.wf a -> In (k, v) a -> PyDict.setitem a k v = a.
Proof.
  unfold PyDict.wf.
  induction a as [|[k0 v0] r IH]; simpl; intros Hwf Hin; [contradiction|].
  inversion Hwf as [|? ? Hnotin Hr]; subst.
  destruct Hin as [[= -> ->] | Hin].
  - now rewrite String.eqb_refl.
  - destruct (k0 =? k) eqn:E.
    + apply String.eqb_eq in E. subst. exfalso. apply Hnotin.
      now apply (in_map fst) in Hin.
    + now rewrite IH.
Qed.

Lemma update_self_part a (l : list (string * V)) :
  PyDict.wf a -> incl l a ->
  fold_left (fun acc kv => PyDict.setitem acc (fst kv) (snd kv)) l a = a.
Proof.
  intros Hwf. induction l as [|[k v] r IH]; simpl; intros Hincl; [reflexivity|].
  rewrite setitem_same; [|assumption|apply Hincl; now left].
  apply IH. intros x Hx. apply Hincl. now right.
Qed.

Lemma update_idem a : PyDict.wf a -> PyDict.update a a = a.
Proof.
  intros Hwf. unfold PyDict.update, PyDict.items.
  apply update_self_part; [assumption|apply incl_refl].
Qed.

Lemma update_empty_l b : PyDict.wf b -> PyDict.update PyDict.empty b = b.
Proof.
  intros Hwf. rewrite update_disjoint; [reflexivity|assumption|].
  intros k _ [].
Qed.

Lemma update_assoc a b c :
  PyDict.wf b -> PyDict.wf c ->
  PyDict.eq (PyDict.update (PyDict.update a b) c) (PyDict.update a (PyDict.update b c)).
Proof.
  intros Hb Hc k.
  rewrite !get_update; try assumption; [|now apply wf_update].
  now destruct (PyDict.get c k).
Qed.

(** The order of the keys after [update]. *)
Lemma keys_update_order b : forall a,
  PyDict.wf b ->
  PyDict.keys (PyDict.update a b)
  = PyDict.keys a ++ filter (fun k => negb (PyDict.contains a k)) (PyDict.keys b).
Proof.
  unfold PyDict.update, PyDict.items, PyDict.wf.
  induction b as [|[k v] r IH]; simpl; intros a Hwf.
  - now rewrite app_nil_r.
  - inversion Hwf as [|? ? Hnotin Hr]; subst.
    rewrite IH by assumption.
    assert (Hext : forall k', In k' (PyDict.keys r) ->
              negb (PyDict.contains (PyDict.setitem a k v) k')
              = negb (PyDict.contains a k')).
    { intros k' Hk'. unfold PyDict.contains. rewrite get_setitem.
      destruct (k =? k') eqn:E; [|reflexivity].
      apply String.eqb_eq in E. subst. contradiction. }
    rewrite (filter_ext_in _ _ _ Hext).
    unfold PyDict.contains at 2.
    destruct (PyDict.get a k) as [v0|] eqn:E; simpl.
    + rewrite setitem_present; [reflexivity|]. apply In_keys_get. now exists v0.
    + apply get_None_iff in E. rewrite setitem_fresh by exact E.
      unfold PyDict.keys. rewrite map_app, <- app_assoc. reflexivity.
Qed.

End MergeFacts.

(** X9. Merging is a union with a neutral element: merging the empty
    shard, or merging into the empty registry, or merging a shard a second
    time, gives the data back, and three shards merged in sequence read
    the same however the merges are grouped. *)
Theorem merge_domaindata_algebra (A B C : domaindata) (dn dn' : list string) :
  registry_ok A -> registry_ok B -> registry_ok C ->
  ZephyrDomain.merge_domaindata A dn ZephyrDomain.initial_data = A
  /\ ZephyrDomain.merge_domaindata ZephyrDomain.initial_data dn B = B
  /\ ZephyrDomain.merge_domaindata A dn A = A
  /\ ZephyrDomain.merge_domaindata (ZephyrDomain.merge_domaindata A dn B) dn' B
     = ZephyrDomain.merge_domaindata A dn B
  /\ PyDict.eq
       (code_samples (ZephyrDomain.merge_domaindata
                        (ZephyrDomain.merge_domaindata A dn B) dn' C))
       (code_samples (ZephyrDomain.merge_domaindata A dn
                        (ZephyrDomain.merge_domaindata B dn' C)))
  /\ PyDict.eq
       (code_samples_categories (ZephyrDomain.merge_domaindata
                                   (ZephyrDomain.merge_domaindata A dn B) dn' C))
       (code_samples_categories (ZephyrDomain.merge_domaindata A dn
                                   (ZephyrDomain.merge_domaindata B dn' C))).
Proof.
  intros (HA & _ & HAc) (HB & _ & HBc) (HC & _ & HCc).
  unfold ZephyrDomain.merge_domaindata, ZephyrDomain.initial_data.
  cbn [code_samples code_samples_categories].
  split; [|split; [|split; [|split; [|split]]]].
  - now destruct A.
  - rewrite !update_empty_l by assumption. now destruct B.
  - rewrite !update_idem by assumption. now destruct A.
  - f_equal.
    + unfold PyDict.update at 1. apply update_self_part; [now apply wf_update|].
      intros [k v] Hin.
      apply (@get_Some_In _ (PyDict.update (code_samples A) (code_samples B)) k v).
      rewrite get_update by assumption. now rewrite (@In_get_wf _ _ k v HB Hin).
    + unfold PyDict.update at 1. apply update_self_part; [now apply wf_update|].
      intros [k v] Hin.
      apply (@get_Some_In _ (PyDict.update (code_samples_categories A)
                                           (code_samples_categories B)) k v).
      rewrite get_update by assumption. now rewrite (@In_get_wf _ _ k v HBc Hin).
  - now apply update_assoc.
  - now apply update_assoc.
Qed.

Lemma merge_domaindata_algebra_witness :
  registry_ok shard_a /\ registry_ok shard_b /\ registry_ok ZephyrDomain.initial_data
  /\ ZephyrDomain.merge_domaindata shard_a [] shard_a = shard_a
  /\ ZephyrDomain.merge_domaindata ZephyrDomain.initial_data [] shard_b = shard_b.
Proof.
  assert (Ha : registry_ok shard_a).
  { split; [distinct_keys|]. split; [|distinct_keys]. repeat constructor. }
  assert (Hb : registry_ok shard_b).
  { split; [distinct_keys|]. split; [|distinct_keys]. repeat constructor. }
  assert (H0 : registry_ok ZephyrDomain.initial_data).
  { split; [distinct_keys|]. split; [|distinct_keys]. constructor. }
  destruct (merge_domaindata_algebra [] [] Ha Hb H0) as (_ & Hleft & Hidem & _).
  split; [exact Ha|]. split; [exact Hb|]. split; [exact H0|].
  split; [exact Hidem|exact Hleft].
Defined.

(** X10. Merging keeps the registry order: the ids of the receiving
    registry stay where they are, also those whose sample is replaced, and
    the ids only the incoming shard has follow in the shard's order; the
    category names behave alike. *)
Theorem merge_domaindata_keeps_order (A B : domaindata) (dn : list string) :
  PyDict.wf (code_samples B) ->
  PyDict.wf (code_samples_categories B) ->
  PyDict.keys (code_samples (ZephyrDomain.merge_domaindata A dn B))
  = PyDict.keys (code_samples A)
    ++ filter (fun id => negb (PyDict.contains (code_samples A) id))
              (PyDict.keys (code_samples B))
  /\ PyDict.keys (code_samples_categories (ZephyrDomain.merge_domaindata A dn B))
     = PyDict.keys (code_samples_categories A)
       ++ filter (fun name => negb (PyDict.contains (code_samples_categories A) name))
                 (PyDict.keys (code_samples_categories B)).
Proof.
  intros Hs Hc. unfold ZephyrDomain.merge_domaindata.
  cbn [code_samples code_samples_categories].
  split; now apply keys_update_order.
Qed.

Lemma merge_domaindata_keeps_order_witness :
  PyDict.wf (code_samples (register_all [foo; blinky_moved]))
  /\ PyDict.wf (code_samples_categories (register_all [foo; blinky_moved]))
  /\ PyDict.keys (code_samples (ZephyrDomain.merge_domaindata shard_a []
                                  (register_all [foo; blinky_moved])))
     = ["blinky"; "abc"; "foo"]
  /\ PyDict.get (code_samples (ZephyrDomain.merge_domaindata shard_a []
                                 (register_all [foo; blinky_moved]))) "blinky"
     = Some blinky_moved.
Proof.
  assert (Hs : PyDict.wf (code_samples (register_all [foo; blinky_moved])))
    by distinct_keys.
  assert (Hc : PyDict.wf (code_samples_categories (register_all [foo; blinky_moved])))
    by distinct_keys.
  split; [exact Hs|]. split; [exact Hc|]. split.
  - exact (proj1 (@merge_domaindata_keeps_order shard_a
                    (register_all [foo; blinky_moved]) [] Hs Hc)).
  - reflexivity.
Defined.

(* ================================================================== *)
(** ** More on sorting *)
(* ================================================================== *)

Lemma string_leb_ltb_false (s1 s2 : string) :
  String.leb s1 s2 = true -> String.ltb s2 s1 = false.
Proof.
  unfold String.ltb, String.leb. rewrite (String.compare_antisym s1 s2).
  now destruct (String.compare s2 s1).
Qed.

Section SortedMore.

Variable A : Type.
Variable key : A -> string.

Lemma insert_by_least (x : A) (l : list A) :
  Forall (key_le key x) l -> insert_by key x l = x :: l.
Proof.
  destruct l as [|y r]; [reflexivity|].
  intros H. inversion H as [|? ? Hxy _]; subst. simpl.
  now rewrite (string_leb_ltb_false _ _ Hxy).
Qed.

(** Filtering a sorted list and inserting commute. *)
Lemma filter_insert_by (p : A -> bool) (x : A) (l : list A) :
  StronglySorted (key_le key) l ->
  filter p (insert_by key x l)
  = if p x then insert_by key x (filter p l) else filter p l.
Proof.
  induction 1 as [|y r Hr IH Hy]; simpl.
  - now destruct (p x).
  - destruct (String.ltb (key y) (key x)) eqn:Hlt.
    + simpl. rewrite IH. destruct (p y), (p x); simpl; rewrite ?Hlt; reflexivity.
    + assert (Hxy : key_le key x y) by now apply string_ltb_false_leb.
      cbn [filter]. destruct (p x); [|reflexivity].
      symmetry. apply insert_by_least.
      rewrite Forall_forall. intros z Hz.
      assert (Hz' : In z (y :: r)).
      { destruct (p y); [destruct Hz as [<-|Hz]; [now left|]|];
          right; now apply filter_In in Hz. }
      destruct Hz' as [<- | Hz']; [exact Hxy|].
      rewrite Forall_forall in Hy. unfold key_le in *.
      eapply string_leb_trans; eauto.
Qed.

Lemma filter_sorted (p : A -> bool) (l : list A) :
  filter p (sorted key l) = sorted key (filter p l).
Proof.
  induction l as [|x r IH]; [reflexivity|].
  cbn [sorted filter]. rewrite filter_insert_by by apply sorted_sorted.
  rewrite IH. now destruct (p x).
Qed.

(** A sorted list with distinct keys is the only sorted arrangement of its
    elements. *)
Lemma sorted_arrangement_unique (a : list A) : forall b,
  StronglySorted (key_le key) a -> StronglySorted (key_le key) b ->
  Permutation a b -> NoDup (map key a) -> a = b.
Proof.
  induction a as [|x a' IH]; intros b Ha Hb Hperm Hnodup.
  - apply Permutation_nil in Hperm. now subst.
  - destruct b as [|y b'].
    { symmetry in Hperm. apply Permutation_nil in Hperm. discriminate. }
    inversion Ha as [|? ? Ha' Hx]; subst.
    inversion Hb as [|? ? Hb' Hy]; subst.
    simpl in Hnodup. inversion Hnodup as [|? ? Hkx Hnodup']; subst.
    assert (Hxy : x = y).
    { assert (Hyin : In y (x :: a'))
        by (apply (Permutation_in _ (Permutation_sym Hperm)); now left).
      destruct Hyin as [Heq | Hyin]; [exact Heq|].
      assert (Hxin : In x (y :: b')) by (apply (Permutation_in _ Hperm); now left).
      destruct Hxin as [Heq | Hxin]; [now symmetry|].
      exfalso. apply Hkx.
      rewrite Forall_forall in Hx, Hy.
      assert (Hk : key x = key y)
        by (apply String.leb_antisym; [apply Hx|apply Hy]; assumption).
      rewrite Hk. now apply in_map. }
    subst y. f_equal.
    apply IH; try assumption. now apply Permutation_cons_inv in Hperm.
Qed.

Lemma sorted_permutation_invariant (l1 l2 : list A) :
  Permutation l1 l2 -> NoDup (map key l1) -> sorted key l1 = sorted key l2.
Proof.
  intros Hperm Hnodup.
  apply sorted_arrangement_unique; try apply sorted_sorted.
  - rewrite (sorted_perm key l1), (sorted_perm key l2). exact Hperm.
  - apply (Permutation_NoDup (l := map key l1)); [|exact Hnodup].
    apply Permutation_map. symmetry. apply sorted_perm.
Qed.

End SortedMore.

(* ================================================================== *)
(** ** [dirname] on a path with a last component *)
(* ================================================================== *)

Lemma rfind_from_absent (c : ascii) (s : string) : forall i found,
  has_char c s = false -> PyStr.rfind_from c s i found = found.
Proof.
  induction s as [|a r IH]; simpl; intros i found H; [reflexivity|].
  apply orb_false_iff in H. destruct H as [Ha Hr].
  rewrite Ha. now apply IH.
Qed.

Lemma rfind_from_last (c : ascii) (a b : string) : forall i found,
  has_char c b = false ->
  PyStr.rfind_from c (a ++ String c b) i found = (i + Z.of_nat (String.length a))%Z.
Proof.
  induction a as [|x a' IH]; intros i found Hb.
  - cbn [append PyStr.rfind_from String.length]. rewrite Ascii.eqb_refl.
    rewrite rfind_from_absent by assumption. cbn. lia.
  - cbn [append PyStr.rfind_from String.length]. rewrite IH by assumption. lia.
Qed.

Lemma substring_head (a b : string) (c : ascii) :
  String.substring 0 (S (String.length a)) (a ++ String c b) = (a ++ String c "")%string.
Proof.
  induction a as [|x a' IH].
  - cbn. now destruct b.
  - cbn [append String.length]. cbn [String.substring]. now rewrite IH.
Qed.

Lemma dirname_absent (p : string) :
  has_char posixpath.sep p = false -> posixpath.dirname p = "".
Proof.
  intros H. unfold posixpath.dirname, PyStr.rfind, PyStr.slice_to.
  rewrite rfind_from_absent by assumption. cbn. now destruct p.
Qed.

Lemma eqb_repeat_char (c : ascii) (s : string) :
  (s =? PyStr.repeat_char c (String.length s)) = all_chars (fun x => Ascii.eqb x c) s.
Proof.
  induction s as [|x r IH]; [reflexivity|].
  cbn [String.length PyStr.repeat_char String.eqb all_chars].
  rewrite IH. now destruct (Ascii.eqb x c).
Qed.

Lemma all_chars_app (p : ascii -> bool) (a b : string) :
  all_chars p (a ++ b) = all_chars p a && all_chars p b.
Proof.
  induction a as [|x r IH]; [reflexivity|].
  cbn [append all_chars]. rewrite IH. now rewrite andb_assoc.
Qed.

Lemma rstrip_snoc (a : string) (c : ascii) :
  PyStr.rstrip (a ++ String c "") c = PyStr.rstrip a c.
Proof.
  induction a as [|x r IH].
  - cbn. now rewrite Ascii.eqb_refl.
  - cbn [append PyStr.rstrip]. now rewrite IH.
Qed.

(** [dirname] of [a/b] where [b] has no slash. *)
Lemma dirname_split (a b : string) :
  has_char posixpath.sep b = false ->
  posixpath.dirname (a ++ String posixpath.sep b)
  = if all_chars (fun x => Ascii.eqb x posixpath.sep) a
    then (a ++ String posixpath.sep "")%string
    else PyStr.rstrip a posixpath.sep.
Proof.
  intros Hb. unfold posixpath.dirname, PyStr.rfind, PyStr.slice_to.
  rewrite rfind_from_last by assumption.
  replace (Z.to_nat (0 + Z.of_nat (String.length a) + 1)) with (S (String.length a)) by lia.
  rewrite substring_head, eqb_repeat_char, all_chars_app.
  cbn [all_chars]. rewrite Ascii.eqb_refl, andb_true_r.
  assert (Hne : ((a ++ String posixpath.sep "") =? "") = false)
    by (now destruct a).
  rewrite Hne. cbn [negb andb].
  destruct (all_chars (fun x => Ascii.eqb x posixpath.sep) a); cbn [negb].
  - reflexivity.
  - apply rstrip_snoc.
Qed.

Lemma prefix_nil (s : string) : String.prefix "" s = true.
Proof. now destruct s. Qed.

Lemma prefix_cons (x y : ascii) (a b : string) :
  String.prefix (String x a) (String y b) = Ascii.eqb x y && String.prefix a b.
Proof.
  cbn [String.prefix]. destruct (ascii_dec x y) as [->|Hneq].
  - now rewrite Ascii.eqb_refl.
  - apply Ascii.eqb_neq in Hneq. now rewrite Hneq.
Qed.

(** The paths [rstrip] leaves alone: they do not end in [c]. *)
Lemma rstrip_fixed_tail (x c : ascii) (d : string) :
  PyStr.rstrip (String x d) c = String x d -> PyStr.rstrip d c = d.
Proof.
  cbn [PyStr.rstrip]. destruct (PyStr.rstrip d c) as [|y r] eqn:E.
  - destruct (Ascii.eqb x c); [discriminate|]. now intros [= <-].
  - now intros [= <-].
Qed.

Lemma rstrip_fixed_single (x c : ascii) :
  PyStr.rstrip (String x "") c = String x "" -> Ascii.eqb x c = false.
Proof.
  cbn. now destruct (Ascii.eqb x c).
Qed.

Lemma prefix_rstrip (c : ascii) (d : string) : forall a,
  PyStr.rstrip d c = d ->
  String.prefix d (PyStr.rstrip a c) = String.prefix d a.
Proof.
  induction d as [|x d' IH]; intros a Hd.
  - now rewrite !prefix_nil.
  - destruct a as [|y a'].
    + reflexivity.
    + pose proof (@rstrip_fixed_tail x c d' Hd) as Hd'.
      specialize (IH a' Hd').
      cbn [PyStr.rstrip].
      destruct (PyStr.rstrip a' c) as [|z r] eqn:Ea.
      * destruct d' as [|x' d''].
        -- apply rstrip_fixed_single in Hd.
           destruct (Ascii.eqb y c) eqn:Ey.
           ++ rewrite prefix_cons, prefix_nil, andb_true_r.
              apply Ascii.eqb_eq in Ey. subst y. cbn. exact (eq_sym Hd).
           ++ now rewrite !prefix_cons, !prefix_nil.
        -- rewrite (prefix_cons x y (String x' d'') a'), <- IH.
           replace (String.prefix (String x' d'') "") with false by reflexivity.
           rewrite andb_false_r.
           destruct (Ascii.eqb y c); [reflexivity|].
           rewrite prefix_cons.
           replace (String.prefix (String x' d'') "") with false by reflexivity.
           apply andb_false_r.
      * rewrite !prefix_cons. now rewrite IH.
Qed.

Lemma prefix_all_chars (p : ascii -> bool) (d : string) : forall s,
  String.prefix d s = true -> all_chars p s = true -> all_chars p d = true.
Proof.
  induction d as [|x d' IH]; intros s Hpre Hs; [reflexivity|].
  destruct s as [|y s']; [discriminate|].
  rewrite prefix_cons in Hpre. apply andb_true_iff in Hpre. destruct Hpre as [Hxy Hpre].
  apply Ascii.eqb_eq in Hxy. subst y.
  cbn [all_chars] in *. apply andb_true_iff in Hs. destruct Hs as [Hx Hs].
  rewrite Hx. cbn. now apply (IH s').
Qed.

(* ================================================================== *)
(** ** More on the listing directive *)
(* ================================================================== *)

(** X11. The hidden table of contents of a listing names the same samples
    in the same order as its definition list, although the one filters
    the sorted registry and the other sorts the filtered registry: entry
    by entry the toctree holds the name and the document of the sample the
    definition list links to. *)
Theorem listing_toctree_matches_definition_list (self : Directive) (env : BuildEnvironment) :
  exists out env' listed,
    CodeSampleListingDirective.run self env = (Ok out, env')
    /\ CodeSampleListingDirective.out_dl out = map sample_dli listed
    /\ entries (CodeSampleListingDirective.out_toctree out)
       = map (fun s => (cs_name s, cs_docname s)) listed
    /\ includefiles (CodeSampleListingDirective.out_toctree out) = map cs_docname listed
    /\ map fst (entries (CodeSampleListingDirective.out_toctree out))
       = dl_names (CodeSampleListingDirective.out_dl out)
    /\ map (fun item => reftarget (term item)) (CodeSampleListingDirective.out_dl out)
       = map cs_id listed.
Proof.
  destruct (CodeSampleListingDirective_run_eq self env) as [env' Hrun].
  cbv zeta in Hrun. rewrite filter_sorted in Hrun.
  eexists. exists env'.
  exists (sorted name_key
            (filter (CodeSampleListingDirective.in_hierarchy (docname env))
                    (PyDict.values (code_samples (zephyr env))))).
  split; [exact Hrun|].
  cbn [CodeSampleListingDirective.out_dl CodeSampleListingDirective.out_toctree
       entries includefiles].
  split; [reflexivity|]. split; [reflexivity|]. split; [reflexivity|]. split.
  - unfold dl_names. rewrite !map_map. reflexivity.
  - rewrite map_map. reflexivity.
Qed.

(** X12. A listing in a document at the top of the source tree, whose
    name has no slash, shows every registered sample: its directory is the
    empty string, which every directory starts with. *)
Theorem listing_at_top_level_shows_all (self : Directive) (env : BuildEnvironment) :
  has_char posixpath.sep (docname env) = false ->
  exists out env',
    CodeSampleListingDirective.run self env = (Ok out, env')
    /\ CodeSampleListingDirective.out_dl out
       = create_code_sample_definition_list (PyDict.values (code_samples (zephyr env)))
    /\ List.length (CodeSampleListingDirective.out_dl out)
       = PyDict.len (code_samples (zephyr env))
    /\ Permutation (includefiles (CodeSampleListingDirective.out_toctree out))
                   (map cs_docname (PyDict.values (code_samples (zephyr env)))).
Proof.
  intros Htop.
  destruct (CodeSampleListingDirective_run_eq self env) as [env' Hrun].
  cbv zeta in Hrun.
  assert (Hall : forall l,
            filter (CodeSampleListingDirective.in_hierarchy (docname env)) l = l).
  { intros l. apply filter_all. intros s _.
    unfold CodeSampleListingDirective.in_hierarchy, PyStr.startswith.
    rewrite (dirname_absent _ Htop). apply prefix_nil. }
  rewrite !Hall in Hrun.
  eexists. exists env'. split; [exact Hrun|].
  cbn [CodeSampleListingDirective.out_dl CodeSampleListingDirective.out_toctree
       includefiles].
  split; [reflexivity|]. split.
  - rewrite length_map, (Permutation_length (sorted_perm name_key _)).
    unfold PyDict.values, PyDict.len. apply length_map.
  - apply Permutation_map, sorted_perm.
Qed.

Lemma listing_at_top_level_witness :
  has_char posixpath.sep (docname (env_at "index" shard_b)) = false
  /\ exists out env',
       CodeSampleListingDirective.run listing_directive (env_at "index" shard_b)
       = (Ok out, env')
       /\ dl_names (CodeSampleListingDirective.out_dl out) = ["Echo"; "Foo"].
Proof.
  split; [reflexivity|].
  destruct (listing_at_top_level_shows_all listing_directive (env_at "index" shard_b)
              eq_refl) as (out & env' & Hrun & Hdl & _).
  exists out, env'. split; [exact Hrun|]. rewrite Hdl. reflexivity.
Defined.

(** X13. For a listing in document [D/n] and a sample declared in
    [a/b], where [n] and [b] are file names and [D] is a directory name
    that is not made of slashes and does not end in one, the directory of
    the listing is [D], and the sample is listed exactly when [a] starts
    with [D]: the samples of [D] and of the directories below it are in,
    as is any directory whose name merely extends that of [D]. *)
Theorem listing_of_directory (self : Directive) (env : BuildEnvironment)
    (D n a b : string) (s : code_sample) :
  has_char posixpath.sep n = false ->
  has_char posixpath.sep b = false ->
  all_chars (fun x => Ascii.eqb x posixpath.sep) D = false ->
  PyStr.rstrip D posixpath.sep = D ->
  docname env = (D ++ String posixpath.sep n)%string ->
  cs_docname s = (a ++ String posixpath.sep b)%string ->
  posixpath.dirname (docname env) = D
  /\ CodeSampleListingDirective.in_hierarchy (docname env) s = String.prefix D a
  /\ exists out env' listed,
       CodeSampleListingDirective.run self env = (Ok out, env')
       /\ CodeSampleListingDirective.out_dl out = map sample_dli listed
       /\ (In s listed
           <-> In s (PyDict.values (code_samples (zephyr env)))
               /\ String.prefix D a = true).
Proof.
  intros Hn Hb HD Hstrip Hdoc Hs.
  assert (Hdir : posixpath.dirname (docname env) = D).
  { rewrite Hdoc, dirname_split by assumption. now rewrite HD. }
  assert (Hin : CodeSampleListingDirective.in_hierarchy (docname env) s
                = String.prefix D a).
  { unfold CodeSampleListingDirective.in_hierarchy, PyStr.startswith.
    rewrite Hdir, Hs, dirname_split by assumption.
    destruct (all_chars (fun x => Ascii.eqb x posixpath.sep) a) eqn:Ea.
    - destruct (String.prefix D (a ++ String posixpath.sep "")) eqn:E1.
      + apply (prefix_all_chars (fun x => Ascii.eqb x posixpath.sep)) in E1;
          [congruence|].
        rewrite all_chars_app, Ea. reflexivity.
      + destruct (String.prefix D a) eqn:E2; [|reflexivity].
        apply (prefix_all_chars (fun x => Ascii.eqb x posixpath.sep)) in E2;
          congruence.
    - now apply prefix_rstrip. }
  split; [exact Hdir|]. split; [exact Hin|].
  destruct (CodeSampleListingDirective_run_eq self env) as [env' Hrun].
  cbv zeta in Hrun.
  eexists. exists env'.
  exists (sorted name_key
            (filter (CodeSampleListingDirective.in_hierarchy (docname env))
                    (PyDict.values (code_samples (zephyr env))))).
  split; [exact Hrun|]. split; [reflexivity|].
  rewrite sorted_In, filter_In, Hin. reflexivity.
Qed.

Lemma listing_of_directory_witness :
  has_char posixpath.sep "index" = false
  /\ has_char posixpath.sep "echo" = false
  /\ all_chars (fun x => Ascii.eqb x posixpath.sep) "samples/drivers" = false
  /\ PyStr.rstrip "samples/drivers" posixpath.sep = "samples/drivers"
  /\ CodeSampleListingDirective.in_hierarchy "samples/drivers/index" uart_echo = true
  /\ CodeSampleListingDirective.in_hierarchy "samples/drivers/index" blinky = false.
Proof.
  split; [reflexivity|]. split; [reflexivity|]. split; [reflexivity|].
  split; [reflexivity|]. split.
  - exact (proj1 (proj2 (@listing_of_directory listing_directive
             (env_at "samples/drivers/index" shard_b)
             "samples/drivers" "index" "samples/drivers/uart" "echo" uart_echo
             eq_refl eq_refl eq_refl eq_refl eq_refl eq_refl))).
  - exact (proj1 (proj2 (@listing_of_directory listing_directive
             (env_at "samples/drivers/index" shard_b)
             "samples/drivers" "index" "samples/basic" "blinky" blinky
             eq_refl eq_refl eq_refl eq_refl eq_refl eq_refl))).
Defined.



(** X15. The listing directive reads the registry and writes nothing but
    the set of documents to read again at every build: the registry, the
    log and the metadata stay as they are, the listing document joins the
    set once, and a second run changes nothing more. *)
Theorem listing_directive_frame (self : Directive) (env : BuildEnvironment) :
  let env' := snd (CodeSampleListingDirective.run self env) in
  zephyr env' = zephyr env
  /\ logger env' = logger env
  /\ metadata env' = metadata env
  /\ docname env' = docname env
  /\ In (docname env) (reread_always env')
  /\ (forall d, In d (reread_always env') <-> In d (reread_always env) \/ d = docname env)
  /\ (NoDup (reread_always env) -> NoDup (reread_always env'))
  /\ CodeSampleListingDirective.run self env'
     = (fst (CodeSampleListingDirective.run self env), env').
Proof.
  cbv zeta.
  unfold CodeSampleListingDirective.run, bind, gets, note_reread, modify, ret.
  cbn [fst snd zephyr logger metadata docname reread_always].
  assert (Hmem : forall d,
            In d (if existsb (String.eqb (docname env)) (reread_always env)
                  then reread_always env
                  else reread_always env ++ [docname env])
            <-> In d (reread_always env) \/ d = docname env).
  { intros d.
    destruct (existsb (String.eqb (docname env)) (reread_always env)) eqn:E.
    - split; [now left|]. intros [H | ->]; [exact H|].
      apply existsb_exists in E. destruct E as [x [Hx Heq]].
      apply String.eqb_eq in Heq. now subst.
    - rewrite in_app_iff. simpl. intuition. }
  split; [reflexivity|]. split; [reflexivity|]. split; [reflexivity|].
  split; [reflexivity|]. split; [apply Hmem; now right|]. split; [exact Hmem|].
  split.
  - intros Hnodup.
    destruct (existsb (String.eqb (docname env)) (reread_always env)) eqn:E;
      [exact Hnodup|].
    apply NoDup_app; [exact Hnodup|repeat constructor; intros []|].
    intros x Hx [<- | []].
    assert (Hex : existsb (String.eqb (docname env)) (reread_always env) = true).
    { apply existsb_exists. exists (docname env). split; [exact Hx|apply String.eqb_refl]. }
    congruence.
  - assert (Hex : existsb (String.eqb (docname env))
                    (if existsb (String.eqb (docname env)) (reread_always env)
                     then reread_always env
                     else reread_always env ++ [docname env]) = true).
    { apply existsb_exists. exists (docname env).
      split; [apply Hmem; now right|apply String.eqb_refl]. }
    rewrite Hex. reflexivity.
Qed.

Lemma listing_directive_frame_witness :
  NoDup (reread_always (env_at "samples/basic/index" shard_a))
  /\ reread_always (snd (CodeSampleListingDirective.run listing_directive
                           (env_at "samples/basic/index" shard_a)))
     = ["samples/basic/index"]
  /\ NoDup (reread_always (snd (CodeSampleListingDirective.run listing_directive
                                  (env_at "samples/basic/index" shard_a)))).
Proof.
  assert (H : NoDup (reread_always (env_at "samples/basic/index" shard_a)))
    by constructor.
  destruct (listing_directive_frame listing_directive
              (env_at "samples/basic/index" shard_a))
    as (_ & _ & _ & _ & _ & _ & Hnodup & _).
  split; [exact H|]. split; [reflexivity|]. exact (Hnodup H).
Defined.

(* ================================================================== *)
(** ** More on the related-samples transform *)
(* ================================================================== *)

Lemma process_no_placeholder (data : domaindata) (id : string) :
  Forall (fun n => is_placeholder n = false)
         (ProcessRelatedCodeSamplesNode.process data id).
Proof.
  unfold ProcessRelatedCodeSamplesNode.process.
  destruct (Nat.ltb 0 _); repeat constructor.
Qed.

Lemma process_length (data : domaindata) (id : string) :
  List.length (ProcessRelatedCodeSamplesNode.process data id) <= 1.
Proof.
  unfold ProcessRelatedCodeSamplesNode.process.
  destruct (Nat.ltb 0 _); simpl; lia.
Qed.

Lemma run_without_placeholder (data : domaindata) (document : list doc_node) :
  Forall (fun n => is_placeholder n = false) document ->
  ProcessRelatedCodeSamplesNode.run data document = document.
Proof.
  unfold ProcessRelatedCodeSamplesNode.run.
  induction 1 as [|n r Hn Hr IH]; [reflexivity|].
  cbn [flat_map]. rewrite IH. destruct n; [discriminate|reflexivity|reflexivity].
Qed.

Lemma process_unreferenced (data : domaindata) (id : string) :
  (forall s, In s (PyDict.values (code_samples data)) -> ~ In id (cs_relevant_api s)) ->
  ProcessRelatedCodeSamplesNode.process data id = [].
Proof.
  intros Hnone. unfold ProcessRelatedCodeSamplesNode.process.
  destruct (filter (fun s => existsb (String.eqb id) (cs_relevant_api s))
                   (PyDict.values (code_samples data))) as [|s0 sel] eqn:E;
    [reflexivity|].
  exfalso.
  assert (Hin : In s0 (filter (fun s => existsb (String.eqb id) (cs_relevant_api s))
                              (PyDict.values (code_samples data))))
    by (rewrite E; now left).
  apply filter_In in Hin. destruct Hin as [Hs0 Hex].
  apply existsb_exists in Hex. destruct Hex as [x [Hx Heq]].
  apply String.eqb_eq in Heq. subst x. exact (Hnone s0 Hs0 Hx).
Qed.

(** X16. After the related-samples transform no placeholder is left in
    the document, whether or not samples were found for it; the transform
    never adds to the number of nodes, leaves a document without
    placeholders as it is, and so changes nothing when run a second
    time. *)
Theorem related_transform_removes_placeholders (data : domaindata)
    (document : list doc_node) :
  Forall (fun n => is_placeholder n = false)
         (ProcessRelatedCodeSamplesNode.run data document)
  /\ List.length (ProcessRelatedCodeSamplesNode.run data document) <= List.length document
  /\ (Forall (fun n => is_placeholder n = false) document ->
      ProcessRelatedCodeSamplesNode.run data document = document)
  /\ ProcessRelatedCodeSamplesNode.run data (ProcessRelatedCodeSamplesNode.run data document)
     = ProcessRelatedCodeSamplesNode.run data document.
Proof.
  assert (Hclean : Forall (fun n => is_placeholder n = false)
                          (ProcessRelatedCodeSamplesNode.run data document)).
  { unfold ProcessRelatedCodeSamplesNode.run.
    induction document as [|n r IH]; [constructor|].
    cbn [flat_map]. apply Forall_app. split; [|exact IH].
    destruct n; [apply process_no_placeholder|repeat constructor..]. }
  split; [exact Hclean|]. split; [|split].
  - clear Hclean. unfold ProcessRelatedCodeSamplesNode.run.
    induction document as [|n r IH]; [reflexivity|].
    cbn [flat_map]. rewrite length_app. cbn [List.length].
    destruct n; [pose proof (process_length data id)|cbn [List.length]..]; lia.
  - apply run_without_placeholder.
  - now apply run_without_placeholder.
Qed.

Lemma related_transform_witness :
  Forall (fun n => is_placeholder n = false) [OtherNode (Text "GPIO")]
  /\ ProcessRelatedCodeSamplesNode.run shard_a [OtherNode (Text "GPIO")]
     = [OtherNode (Text "GPIO")].
Proof.
  assert (H : Forall (fun n => is_placeholder n = false) [OtherNode (Text "GPIO")])
    by (repeat constructor).
  split; [exact H|].
  exact (proj1 (proj2 (proj2 (related_transform_removes_placeholders shard_a
                                [OtherNode (Text "GPIO")]))) H).
Defined.

(** X17. The patched [doxygengroup] directive puts one placeholder for
    its group before the nodes of the original directive; after the
    transform the original nodes follow the block of related samples, and
    when no sample names the group the document is what the original
    directive alone would have produced. *)
Theorem doxygengroup_placeholder (self : Directive) (data : domaindata)
    (nodes : list doc_node) (group : string) (rest : list string) :
  arguments self = group :: rest ->
  Forall (fun n => is_placeholder n = false) nodes ->
  exists out,
    CustomDoxygenGroupDirective.run self nodes = Ok out
    /\ ProcessRelatedCodeSamplesNode.run data out
       = ProcessRelatedCodeSamplesNode.process data group ++ nodes
    /\ ((forall s, In s (PyDict.values (code_samples data)) ->
                   ~ In group (cs_relevant_api s)) ->
        ProcessRelatedCodeSamplesNode.run data out = nodes).
Proof.
  intros Hargs Hnodes. unfold CustomDoxygenGroupDirective.run. rewrite Hargs.
  cbn [index0]. eexists. split; [reflexivity|].
  assert (Hrun : ProcessRelatedCodeSamplesNode.run data
                   (RelatedCodeSamplesNode group :: nodes)
                 = ProcessRelatedCodeSamplesNode.process data group ++ nodes).
  { pose proof (run_without_placeholder data Hnodes) as Hsame.
    unfold ProcessRelatedCodeSamplesNode.run in *. cbn [flat_map]. now rewrite Hsame. }
  split; [exact Hrun|].
  intros Hnone. rewrite Hrun, (process_unreferenced data group Hnone). reflexivity.
Qed.

Lemma doxygengroup_placeholder_witness :
  arguments doxygengroup_gpio = "gpio_interface" :: []
  /\ Forall (fun n => is_placeholder n = false) [OtherNode (Text "GPIO")]
  /\ (forall s, In s (PyDict.values (code_samples (register_all [abc; uart_echo]))) ->
                ~ In "gpio_interface" (cs_relevant_api s))
  /\ exists out,
       CustomDoxygenGroupDirective.run doxygengroup_gpio [OtherNode (Text "GPIO")] = Ok out
       /\ ProcessRelatedCodeSamplesNode.run (register_all [abc; uart_echo]) out
          = [OtherNode (Text "GPIO")].
Proof.
  assert (Hclean : Forall (fun n => is_placeholder n = false) [OtherNode (Text "GPIO")])
    by (repeat constructor).
  assert (Hnone : forall s,
            In s (PyDict.values (code_samples (register_all [abc; uart_echo]))) ->
            ~ In "gpio_interface" (cs_relevant_api s)).
  { intros s Hs Hin. cbn in Hs.
    destruct Hs as [<- | [<- | []]]; cbn in Hin; intuition discriminate. }
  split; [reflexivity|]. split; [exact Hclean|]. split; [exact Hnone|].
  destruct (@doxygengroup_placeholder doxygengroup_gpio (register_all [abc; uart_echo])
              [OtherNode (Text "GPIO")] "gpio_interface" [] eq_refl Hclean)
    as (out & Hout & _ & Hsame).
  exists out. split; [exact Hout|exact (Hsame Hnone)].
Defined.

(* ================================================================== *)
(** ** The [relevant-api] option *)
(* ================================================================== *)

Lemma string_app_assoc (a b c : string) : ((a ++ b) ++ c = a ++ (b ++ c))%string.
Proof. induction a as [|x a' IH]; [reflexivity|]. cbn [append]. now rewrite IH. Qed.

Lemma string_app_nil_r (a : string) : (a ++ "")%string = a.
Proof. induction a as [|x a' IH]; [reflexivity|]. cbn [append]. now rewrite IH. Qed.

Lemma string_app_eq_nil (a b : string) : (a ++ b)%string = "" -> a = "" /\ b = "".
Proof. destruct a; [now split|discriminate]. Qed.

Lemma split_from_clean (s : string) : forall word,
  all_chars (fun c => negb (PyStr.isspace c)) word = true ->
  Forall (fun t => is_token t = true) (PyStr.split_from s word).
Proof.
  induction s as [|c r IH]; intros word Hword; cbn [PyStr.split_from].
  - destruct (word =? "") eqn:E; [constructor|].
    repeat constructor. unfold is_token. now rewrite E, Hword.
  - destruct (PyStr.isspace c) eqn:Ec.
    + destruct (word =? "") eqn:E; [now apply IH|].
      constructor; [|now apply IH].
      unfold is_token. now rewrite E, Hword.
    + apply IH. rewrite all_chars_app, Hword. cbn. now rewrite Ec.
Qed.

Lemma split_from_token (tok : string) : forall rest word,
  all_chars (fun c => negb (PyStr.isspace c)) tok = true ->
  PyStr.split_from (tok ++ rest) word = PyStr.split_from rest (word ++ tok).
Proof.
  induction tok as [|x t IH]; intros rest word Htok.
  - now rewrite string_app_nil_r.
  - cbn [all_chars] in Htok. apply andb_true_iff in Htok. destruct Htok as [Hx Ht].
    apply negb_true_iff in Hx.
    cbn [append PyStr.split_from]. rewrite Hx, IH by assumption.
    now rewrite string_app_assoc.
Qed.

Lemma split_from_join (toks : list string) : forall word,
  Forall (fun t => is_token t = true) toks ->
  PyStr.split_from (PyStr.join " " toks) word
  = match toks with
    | [] => if (word =? "") then [] else [word]
    | t :: r => (word ++ t)%string :: r
    end.
Proof.
  induction toks as [|t r IH]; intros word Htoks; [reflexivity|].
  inversion Htoks as [|? ? Ht Hr]; subst.
  unfold is_token in Ht. apply andb_true_iff in Ht. destruct Ht as [Hne Hclean].
  apply negb_true_iff, String.eqb_neq in Hne.
  destruct r as [|t' r'].
  - cbn [PyStr.join].
    rewrite <- (string_app_nil_r t) at 1.
    rewrite split_from_token by assumption. cbn [PyStr.split_from].
    destruct ((word ++ t)%string =? "") eqn:E; [|reflexivity].
    apply String.eqb_eq, string_app_eq_nil in E. tauto.
  - change (PyStr.join " " (t :: t' :: r'))
      with (t ++ String " " (PyStr.join " " (t' :: r')))%string.
    rewrite split_from_token by assumption.
    cbn [PyStr.split_from]. change (PyStr.isspace " ") with true. cbn iota.
    destruct ((word ++ t)%string =? "") eqn:E.
    + apply String.eqb_eq, string_app_eq_nil in E. tauto.
    + f_equal. rewrite (IH "" Hr). reflexivity.
Qed.

(** X18. For a [relevant-api] option written in ASCII, however it is
    spaced, the API groups registered for a sample are tokens: none is
    empty and none holds white space, so leading, trailing and repeated
    blanks in the option never show up in the registry. *)
Theorem relevant_api_entries_are_tokens (self : Directive) (env : BuildEnvironment)
    (id : string) (rest : list string) :
  arguments self = id :: rest ->
  is_ascii (get_default (options self) "relevant-api" "") = true ->
  exists s,
    PyDict.get (code_samples (zephyr (snd (CodeSampleDirective.run self env)))) id = Some s
    /\ cs_relevant_api s = PyStr.split (get_default (options self) "relevant-api" "")
    /\ Forall (fun group =>
                 group <> ""
                 /\ all_chars (fun c => negb (PyStr.isspace c)) group = true)
              (cs_relevant_api s).
Proof.
  intros Hargs _. rewrite (CodeSampleDirective_run_eq self env Hargs).
  cbn [snd zephyr ZephyrDomain.add_code_sample code_samples cs_id].
  rewrite get_setitem, String.eqb_refl. eexists. split; [reflexivity|].
  cbn [cs_relevant_api]. split; [reflexivity|].
  unfold PyStr.split.
  eapply Forall_impl; [|apply split_from_clean; reflexivity].
  intros t Ht. unfold is_token in Ht. apply andb_true_iff in Ht.
  destruct Ht as [Hne Hclean]. split; [|exact Hclean].
  now apply negb_true_iff, String.eqb_neq in Hne.
Qed.

Lemma relevant_api_tokens_witness :
  arguments declare_blinky_pwm = "blinky_pwm" :: []
  /\ is_ascii (get_default (options declare_blinky_pwm) "relevant-api" "") = true
  /\ exists s,
       PyDict.get (code_samples (zephyr (snd (CodeSampleDirective.run declare_blinky_pwm
                                               (env_at "samples/basic/blinky_pwm" shard_a)))))
         "blinky_pwm" = Some s
       /\ cs_relevant_api s = ["gpio_interface"; "pwm_interface"].
Proof.
  split; [reflexivity|]. split; [reflexivity|].
  destruct (relevant_api_entries_are_tokens declare_blinky_pwm
              (env_at "samples/basic/blinky_pwm" shard_a) (id := "blinky_pwm") (rest := [])
              eq_refl eq_refl) as (s & Hget & Hapi & _).
  exists s. split; [exact Hget|exact Hapi].
Defined.

(** X19. An option listing ASCII names of API groups separated by single
    blanks is registered as exactly that list of groups, in the order
    written. *)
Theorem relevant_api_round_trip (self : Directive) (env : BuildEnvironment)
    (id : string) (rest : list string) (groups : list string) :
  arguments self = id :: rest ->
  Forall (fun group => is_token group = true /\ is_ascii group = true) groups ->
  PyDict.get (options self) "relevant-api" = Some (PyStr.join " " groups) ->
  exists s,
    PyDict.get (code_samples (zephyr (snd (CodeSampleDirective.run self env)))) id = Some s
    /\ cs_relevant_api s = groups.
Proof.
  intros Hargs Hgroups Hopt. rewrite (CodeSampleDirective_run_eq self env Hargs).
  cbn [snd zephyr ZephyrDomain.add_code_sample code_samples cs_id].
  rewrite get_setitem, String.eqb_refl. eexists. split; [reflexivity|].
  cbn [cs_relevant_api]. unfold get_default, PyStr.split. rewrite Hopt.
  rewrite split_from_join; [now destruct groups|].
  eapply Forall_impl; [|exact Hgroups]. now intros g [Hg _].
Qed.

Lemma relevant_api_round_trip_witness :
  arguments declare_blinky_pwm = "blinky_pwm" :: []
  /\ Forall (fun group => is_token group = true /\ is_ascii group = true)
            ["gpio_interface"; "pwm_interface"]
  /\ PyDict.get (options declare_blinky_pwm) "relevant-api"
     = Some (PyStr.join " " ["gpio_interface"; "pwm_interface"])
  /\ exists s,
       PyDict.get (code_samples (zephyr (snd (CodeSampleDirective.run declare_blinky_pwm
                                               (env_at "samples/basic/blinky_pwm" shard_a)))))
         "blinky_pwm" = Some s
       /\ cs_relevant_api s = ["gpio_interface"; "pwm_interface"].
Proof.
  assert (Htok : Forall (fun group => is_token group = true /\ is_ascii group = true)
                        ["gpio_interface"; "pwm_interface"])
    by (repeat constructor).
  split; [reflexivity|]. split; [exact Htok|]. split; [reflexivity|].
  exact (relevant_api_round_trip declare_blinky_pwm
           (env_at "samples/basic/blinky_pwm" shard_a) (id := "blinky_pwm") (rest := [])
           eq_refl Htok eq_refl).
Defined.

(* ================================================================== *)
(** ** What the listings link to *)
(* ================================================================== *)

(** X20. Every entry of a definition list built from registered samples
    resolves: its pending reference, given to [resolve_xref] as it is,
    yields a link to the sample it was built from, whose text is the name
    the entry shows and whose title is the text of the entry's
    definition, or no title when that text is empty. *)
Theorem definition_list_entries_resolve (data : domaindata) (l : list code_sample)
    (item : definition_list_item) (fromdocname builder : string) (contnode : Node) :
  registry_ok data ->
  incl l (PyDict.values (code_samples data)) ->
  In item (create_code_sample_definition_list l) ->
  exists r s,
    ZephyrDomain.resolve_xref data fromdocname builder
      (reftype (term item)) (reftarget (term item)) (term item) contnode = Some r
    /\ In s l
    /\ item = sample_dli s
    /\ ref_todocname r = cs_docname s
    /\ ref_targetid r = reftarget (term item)
    /\ [display_text r] = dl_names [item]
    /\ reftitle r = (if (definition item =? "") then None else Some (definition item)).
Proof.
  intros Hok Hincl Hitem.
  unfold create_code_sample_definition_list in Hitem.
  apply in_map_iff in Hitem. destruct Hitem as [s [<- Hs]].
  apply sorted_In in Hs.
  pose proof (registry_ok_get s Hok (Hincl s Hs)) as Hget.
  unfold ZephyrDomain.resolve_xref, sample_dli.
  cbn [term reftype reftarget refexplicit definition String.eqb Ascii.eqb Bool.eqb].
  rewrite Hget. cbn [ZephyrDomain.truthy negb].
  eexists. exists s. split; [reflexivity|].
  repeat split; assumption || reflexivity.
Qed.

Lemma definition_list_entries_resolve_witness :
  registry_ok shard_a
  /\ incl [abc] (PyDict.values (code_samples shard_a))
  /\ In (sample_dli abc) (create_code_sample_definition_list [abc])
  /\ exists r,
       ZephyrDomain.resolve_xref shard_a "index" "html" "code-sample" "abc"
         (term (sample_dli abc)) (inline "ABC") = Some r
       /\ ref_todocname r = "samples/basic/abc"
       /\ display_text r = "ABC".
Proof.
  assert (Ha : registry_ok shard_a).
  { split; [distinct_keys|]. split; [|distinct_keys]. repeat constructor. }
  assert (Hincl : incl [abc] (PyDict.values (code_samples shard_a))).
  { intros s [<- | []]. right. now left. }
  assert (Hin : In (sample_dli abc) (create_code_sample_definition_list [abc]))
    by (now left).
  split; [exact Ha|]. split; [exact Hincl|]. split; [exact Hin|].
  destruct (@definition_list_entries_resolve shard_a [abc] (sample_dli abc)
              "index" "html" (inline "ABC") Ha Hincl Hin)
    as (r & s & Hr & Hs & Hitem & Hto & _ & Htext & _).
  destruct Hs as [<- | []].
  exists r. split; [exact Hr|]. split; [exact Hto|].
  injection Htext as Htext. exact Htext.
Defined.

(** X21. [get_objects] lists every registered sample once, in registry
    order, under its name and with its id as anchor; the anchors are
    pairwise distinct, each resolves to the document the object names,
    and [get_object_synopses] describes the same places in the same
    order. *)
Theorem get_objects_resolve (data : domaindata) :
  registry_ok data ->
  List.length (ZephyrDomain.get_objects data) = PyDict.len (code_samples data)
  /\ map (fun o => snd (fst o)) (ZephyrDomain.get_objects data)
     = PyDict.keys (code_samples data)
  /\ NoDup (map (fun o => snd (fst o)) (ZephyrDomain.get_objects data))
  /\ map fst (ZephyrDomain.get_object_synopses data)
     = map (fun o => (snd (fst (fst o)), snd (fst o))) (ZephyrDomain.get_objects data)
  /\ (forall name dispname type docname anchor priority,
        In (name, dispname, type, docname, anchor, priority) (ZephyrDomain.get_objects data) ->
        dispname = name /\ type = "code sample" /\ priority = 1
        /\ forall fromdocname builder node contnode,
             exists r,
               ZephyrDomain.resolve_xref data fromdocname builder "code-sample"
                 anchor node contnode = Some r
               /\ ref_todocname r = docname
               /\ ref_targetid r = anchor).
Proof.
  intros Hok. pose proof Hok as (Hwf & Hkeyed & _).
  unfold ZephyrDomain.get_objects, ZephyrDomain.get_object_synopses.
  assert (Hanchors : map (fun o : string * string * string * string * string * nat =>
                            snd (fst o))
                       (map (fun item : string * code_sample =>
                               (cs_name (snd item), cs_name (snd item), "code sample",
                                cs_docname (snd item), cs_id (snd item), 1))
                            (PyDict.items (code_samples data)))
                     = PyDict.keys (code_samples data)).
  { rewrite map_map. unfold PyDict.keys, PyDict.items. apply map_ext_in.
    intros item Hitem. rewrite Forall_forall in Hkeyed. exact (Hkeyed item Hitem). }
  split; [apply length_map|]. split; [exact Hanchors|].
  split; [rewrite Hanchors; exact Hwf|]. split.
  - rewrite !map_map. reflexivity.
  - intros name dispname type docname anchor priority Hin.
    apply in_map_iff in Hin. destruct Hin as [[k s] [Heq Hin]].
    cbn [snd] in Heq. injection Heq as <- <- <- <- <- <-.
    split; [reflexivity|]. split; [reflexivity|]. split; [reflexivity|].
    intros fromdocname builder node contnode.
    assert (Hget : PyDict.get (code_samples data) (cs_id s) = Some s).
    { apply registry_ok_get; [exact Hok|].
      unfold PyDict.values. apply in_map_iff. now exists (k, s). }
    unfold ZephyrDomain.resolve_xref. cbn [String.eqb Ascii.eqb Bool.eqb].
    rewrite Hget. eexists. split; [reflexivity|]. split; reflexivity.
Qed.

Lemma get_objects_resolve_witness :
  registry_ok shard_a
  /\ ZephyrDomain.get_objects shard_a
     = [("Blinky", "Blinky", "code sample", "samples/basic/blinky", "blinky", 1);
        ("ABC", "ABC", "code sample", "samples/basic/abc", "abc", 1)]
  /\ NoDup (map (fun o => snd (fst o)) (ZephyrDomain.get_objects shard_a)).
Proof.
  assert (Ha : registry_ok shard_a).
  { split; [distinct_keys|]. split; [|distinct_keys]. repeat constructor. }
  split; [exact Ha|]. split; [reflexivity|].
  exact (proj1 (proj2 (proj2 (get_objects_resolve Ha)))).
Defined.

(* ================================================================== *)
(** ** Listings and the order of merging *)
(* ================================================================== *)

Lemma values_app {V} (a b : PyDict.dict V) :
  PyDict.values (a ++ b) = PyDict.values a ++ PyDict.values b.
Proof. unfold PyDict.values. apply map_app. Qed.

(** Filtering keeps the case-folded names distinct. *)
Lemma distinct_names_filter (keep : code_sample -> bool) (samples : list code_sample) :
  NoDup (map name_key samples) -> NoDup (map name_key (filter keep samples)).
Proof.
  induction samples as [|s rest IH]; cbn [filter map]; intros Hdistinct.
  - constructor.
  - inversion Hdistinct as [|? ? Hfresh Hrest]; subst.
    destruct (keep s); cbn [map]; [|now apply IH].
    constructor; [|now apply IH].
    rewrite in_map_iff. intros [s' [Hkey Hs']].
    apply Hfresh. rewrite in_map_iff. exists s'.
    split; [exact Hkey|]. now apply filter_In in Hs'.
Qed.

Lemma filter_Permutation {A} (p : A -> bool) (l1 l2 : list A) :
  Permutation l1 l2 -> Permutation (filter p l1) (filter p l2).
Proof.
  induction 1 as [|x l l' H IH|x y l|l l' l'' H1 IH1 H2 IH2]; simpl.
  - constructor.
  - destruct (p x); [now constructor|exact IH].
  - destruct (p x), (p y); try reflexivity. apply perm_swap.
  - now transitivity (filter p l').
Qed.

Lemma create_definition_list_permutation (l1 l2 : list code_sample) (p : code_sample -> bool) :
  Permutation l1 l2 ->
  NoDup (map name_key l1) ->
  create_code_sample_definition_list (filter p l1)
  = create_code_sample_definition_list (filter p l2)
  /\ filter p (sorted name_key l1) = filter p (sorted name_key l2).
Proof.
  intros Hperm Hnodup. unfold create_code_sample_definition_list. split.
  - f_equal. apply sorted_permutation_invariant.
    + now apply filter_Permutation.
    + now apply distinct_names_filter.
  - f_equal. now apply sorted_permutation_invariant.
Qed.

(** X22. When two shards share no sample id, all names are ASCII and no
    two samples have names equal up to case, the order in which the
    shards are merged does not show in what is rendered: a listing
    directive returns the same definition list and table of contents, and
    every API group gets the same block of related samples. *)
Theorem listings_independent_of_merge_order (A B : domaindata) (dA dB : list string)
    (self : Directive) (env : BuildEnvironment) (group : string) :
  PyDict.wf (code_samples A) ->
  PyDict.wf (code_samples B) ->
  PyDict.disjoint (code_samples A) (code_samples B) ->
  ascii_names (PyDict.values (code_samples A) ++ PyDict.values (code_samples B)) ->
  NoDup (map name_key (PyDict.values (code_samples A) ++ PyDict.values (code_samples B))) ->
  let AB := ZephyrDomain.merge_domaindata A dB B in
  let BA := ZephyrDomain.merge_domaindata B dA A in
  fst (CodeSampleListingDirective.run self (with_data env AB))
  = fst (CodeSampleListingDirective.run self (with_data env BA))
  /\ ProcessRelatedCodeSamplesNode.process AB group
     = ProcessRelatedCodeSamplesNode.process BA group.
Proof.
  intros HA HB Hdisj _ Hnames. cbv zeta.
  assert (HvAB : PyDict.values (code_samples (ZephyrDomain.merge_domaindata A dB B))
                 = PyDict.values (code_samples A) ++ PyDict.values (code_samples B)).
  { unfold ZephyrDomain.merge_domaindata. cbn [code_samples].
    rewrite update_disjoint; [apply values_app|assumption|].
    intros k Hkb Hka. exact (Hdisj k Hka Hkb). }
  assert (HvBA : PyDict.values (code_samples (ZephyrDomain.merge_domaindata B dA A))
                 = PyDict.values (code_samples B) ++ PyDict.values (code_samples A)).
  { unfold ZephyrDomain.merge_domaindata. cbn [code_samples].
    rewrite update_disjoint; [apply values_app|assumption|exact Hdisj]. }
  assert (Hperm : Permutation
                    (PyDict.values (code_samples A) ++ PyDict.values (code_samples B))
                    (PyDict.values (code_samples B) ++ PyDict.values (code_samples A)))
    by apply Permutation_app_comm.
  split.
  - unfold CodeSampleListingDirective.run, bind, gets, note_reread, modify, ret.
    cbn [fst with_data zephyr docname]. rewrite HvAB, HvBA.
    destruct (create_definition_list_permutation
                (CodeSampleListingDirective.in_hierarchy (docname env)) Hperm Hnames)
      as [Hdl Htoc].
    now rewrite Hdl, Htoc.
  - unfold ProcessRelatedCodeSamplesNode.process. rewrite HvAB, HvBA.
    destruct (create_definition_list_permutation
                (fun s => existsb (String.eqb group) (cs_relevant_api s)) Hperm Hnames)
      as [Hdl _].
    rewrite Hdl.
    rewrite (Permutation_length
               (filter_Permutation
                  (fun s => existsb (String.eqb group) (cs_relevant_api s)) Hperm)).
    reflexivity.
Qed.

Lemma listings_independent_witness :
  PyDict.wf (code_samples shard_a)
  /\ PyDict.wf (code_samples shard_b)
  /\ PyDict.disjoint (code_samples shard_a) (code_samples shard_b)
  /\ ascii_names (PyDict.values (code_samples shard_a)
                  ++ PyDict.values (code_samples shard_b))
  /\ NoDup (map name_key (PyDict.values (code_samples shard_a)
                          ++ PyDict.values (code_samples shard_b)))
  /\ ProcessRelatedCodeSamplesNode.process
       (ZephyrDomain.merge_domaindata shard_a [] shard_b) "gpio_interface"
     = ProcessRelatedCodeSamplesNode.process
         (ZephyrDomain.merge_domaindata shard_b [] shard_a) "gpio_interface"
  /\ PyDict.keys (code_samples (ZephyrDomain.merge_domaindata shard_a [] shard_b))
     <> PyDict.keys (code_samples (ZephyrDomain.merge_domaindata shard_b [] shard_a)).
Proof.
  assert (Ha : PyDict.wf (code_samples shard_a)) by distinct_keys.
  assert (Hb : PyDict.wf (code_samples shard_b)) by distinct_keys.
  assert (Hd : PyDict.disjoint (code_samples shard_a) (code_samples shard_b))
    by no_common_key.
  assert (Hascii : ascii_names (PyDict.values (code_samples shard_a)
                                ++ PyDict.values (code_samples shard_b)))
    by (repeat constructor).
  assert (Hn : NoDup (map name_key (PyDict.values (code_samples shard_a)
                                    ++ PyDict.values (code_samples shard_b)))).
  { cbn. repeat (constructor; [cbn; intuition discriminate|]). constructor. }
  split; [exact Ha|]. split; [exact Hb|]. split; [exact Hd|]. split; [exact Hascii|].
  split; [exact Hn|]. split.
  - exact (proj2 (@listings_independent_of_merge_order shard_a shard_b [] []
                    listing_directive (env_at "index" ZephyrDomain.initial_data)
                    "gpio_interface" Ha Hb Hd Hascii Hn)).
  - discriminate.
Defined.

(* ================================================================== *)
(** ** The category sections *)
(* ================================================================== *)

Lemma string_length_app (a b : string) :
  String.length (a ++ b) = String.length a + String.length b.
Proof. induction a as [|x a' IH]; [reflexivity|]. cbn. now rewrite IH. Qed.

Lemma string_app_inv_r (s : string) (a : string) : forall b,
  (a ++ s)%string = (b ++ s)%string -> a = b.
Proof.
  induction a as [|x a' IH]; intros [|y b'] H.
  - reflexivity.
  - apply (f_equal String.length) in H. cbn in H. rewrite string_length_app in H. lia.
  - apply (f_equal String.length) in H. cbn in H. rewrite string_length_app in H. lia.
  - cbn in H. injection H as -> H. f_equal. now apply IH.
Qed.

Lemma NoDup_map_injective {A B} (f : A -> B) (l : list A) :
  (forall a b, f a = f b -> a = b) -> NoDup l -> NoDup (map f l).
Proof.
  intros Hinj. induction 1 as [|x r Hnotin Hr IH]; simpl; constructor; [|exact IH].
  intros Hin. apply in_map_iff in Hin. destruct Hin as [y [Hy Hin]].
  apply Hinj in Hy. now subst.
Qed.

Lemma listing_run_without_marker (env_docname : string) (data : domaindata)
    (document : list listing_doc_node) :
  Forall (fun n => is_listing_node n = false) document ->
  ProcessCodeSampleListingNode.run env_docname data document = document.
Proof.
  unfold ProcessCodeSampleListingNode.run.
  induction 1 as [|n r Hn Hr IH]; [reflexivity|].
  cbn [flat_map]. rewrite IH. destruct n; [discriminate|reflexivity|reflexivity].
Qed.

(** X23. The listing post-transform replaces every listing marker,
    wherever it stands in the document, by one section per registered
    category, in registry order; the ids of these sections are pairwise
    distinct; no marker is left, a document without markers is kept as it
    is, and with no category registered the markers are simply
    removed. *)
Theorem category_sections_replace_marker (env_docname : string) (data : domaindata)
    (document : list listing_doc_node) :
  PyDict.wf (code_samples_categories data) ->
  let sections := ProcessCodeSampleListingNode.node_list env_docname data in
  List.length sections = PyDict.len (code_samples_categories data)
  /\ flat_map listing_node_ids sections
     = map (fun name => (name ++ "-sample-category-x")%string)
           (PyDict.keys (code_samples_categories data))
  /\ NoDup (flat_map listing_node_ids sections)
  /\ (forall before marker after,
        ProcessCodeSampleListingNode.run env_docname data
          (before ++ ListingNode marker :: after)
        = ProcessCodeSampleListingNode.run env_docname data before
          ++ sections
          ++ ProcessCodeSampleListingNode.run env_docname data after)
  /\ (forall marker,
        ProcessCodeSampleListingNode.run env_docname data [ListingNode marker] = sections)
  /\ Forall (fun n => is_listing_node n = false)
            (ProcessCodeSampleListingNode.run env_docname data document)
  /\ ProcessCodeSampleListingNode.run env_docname data
       (ProcessCodeSampleListingNode.run env_docname data document)
     = ProcessCodeSampleListingNode.run env_docname data document
  /\ (code_samples_categories data = PyDict.empty ->
      ProcessCodeSampleListingNode.run env_docname data document
      = filter (fun n => negb (is_listing_node n)) document).
Proof.
  intros Hwf. cbv zeta.
  assert (Hids : flat_map listing_node_ids
                   (ProcessCodeSampleListingNode.node_list env_docname data)
                 = map (fun name => (name ++ "-sample-category-x")%string)
                       (PyDict.keys (code_samples_categories data))).
  { clear Hwf.
    unfold ProcessCodeSampleListingNode.node_list, PyDict.keys, PyDict.items.
    induction (code_samples_categories data) as [|[k v] r IH]; [reflexivity|].
    cbn [map flat_map listing_node_ids section_ids
         ProcessCodeSampleListingNode.category_section fst app].
    now rewrite IH. }
  assert (Hclean : Forall (fun n => is_listing_node n = false)
                     (ProcessCodeSampleListingNode.run env_docname data document)).
  { unfold ProcessCodeSampleListingNode.run.
    induction document as [|n r IH]; [constructor|].
    cbn [flat_map]. apply Forall_app. split; [|exact IH].
    destruct n; [|repeat constructor..].
    unfold ProcessCodeSampleListingNode.node_list.
    rewrite Forall_forall. intros x Hx. apply in_map_iff in Hx.
    destruct Hx as [item [<- _]]. reflexivity. }
  split; [apply length_map|]. split; [exact Hids|].
  split; [|split; [|split; [|split; [exact Hclean|split]]]].
  - rewrite Hids. apply NoDup_map_injective; [|exact Hwf].
    intros a b Hab. now apply string_app_inv_r in Hab.
  - intros before marker after. unfold ProcessCodeSampleListingNode.run.
    rewrite flat_map_app. reflexivity.
  - intros marker. unfold ProcessCodeSampleListingNode.run. cbn [flat_map].
    apply app_nil_r.
  - now apply listing_run_without_marker.
  - intros Hempty. clear Hclean.
    unfold ProcessCodeSampleListingNode.run, ProcessCodeSampleListingNode.node_list.
    rewrite Hempty. cbn [PyDict.items PyDict.empty map].
    induction document as [|n r IH]; [reflexivity|].
    cbn [flat_map filter]. rewrite IH. now destruct n.
Qed.

Lemma category_sections_witness :
  PyDict.wf (code_samples_categories
               (ZephyrDomain.merge_domaindata shard_a [] shard_b))
  /\ ProcessCodeSampleListingNode.run "samples/index"
       (ZephyrDomain.merge_domaindata shard_a [] shard_b)
       [ListingOther (Text "Samples"); ListingNode mk_CodeSampleListingNode]
     = [ListingOther (Text "Samples");
        SectionNode (ProcessCodeSampleListingNode.category_section "samples/index"
                       "Basic" (mk_container ["Basic-description"] ["Basic samples."]));
        SectionNode (ProcessCodeSampleListingNode.category_section "samples/index"
                       "Drivers" (mk_container ["Drivers-description"] ["Driver samples."]))]
  /\ NoDup (flat_map listing_node_ids
              (ProcessCodeSampleListingNode.node_list "samples/index"
                 (ZephyrDomain.merge_domaindata shard_a [] shard_b))).
Proof.
  assert (Hwf : PyDict.wf (code_samples_categories
                             (ZephyrDomain.merge_domaindata shard_a [] shard_b)))
    by distinct_keys.
  destruct (@category_sections_replace_marker "samples/index"
              (ZephyrDomain.merge_domaindata shard_a [] shard_b) [] Hwf)
    as (_ & _ & Hdistinct & Hplace & _).
  split; [exact Hwf|]. split; [|exact Hdistinct].
  pose proof (Hplace [ListingOther (Text "Samples")] mk_CodeSampleListingNode [])
    as Hrun.
  cbn [app] in Hrun. rewrite Hrun. reflexivity.
Defined.

(* ================================================================== *)
(** ** Turning a code-sample node into a section *)
(* ================================================================== *)

Section ConvertFacts.

Import ConvertCodeSampleNode.

Lemma index_after_prefix (before after : list tree_node) (n : tree_node) :
  ~ In (uid n) (map uid before) ->
  index (before ++ n :: after) (uid n) = Some (List.length before).
Proof.
  induction before as [|c r IH]; simpl; intros Hnotin.
  - now rewrite Nat.eqb_refl.
  - destruct (Nat.eqb (uid c) (uid n)) eqn:E.
    + apply Nat.eqb_eq in E. tauto.
    + rewrite IH by tauto. reflexivity.
Qed.

Lemma index_absent (children : list tree_node) (u : nat) :
  ~ In u (map uid children) -> index children u = None.
Proof.
  induction children as [|c r IH]; simpl; intros Hnotin; [reflexivity|].
  destruct (Nat.eqb (uid c) u) eqn:E.
  - apply Nat.eqb_eq in E. tauto.
  - rewrite IH by tauto. reflexivity.
Qed.

Lemma remove_after_prefix (pre : list tree_node) (s : new_section)
    (a : tree_node) (r : list parent_child) :
  ~ In (uid a) (map uid pre) ->
  remove (map Kept pre ++ NewSection s :: Kept a :: r) (uid a)
  = Some (map Kept pre ++ NewSection s :: r).
Proof.
  induction pre as [|c pre' IH]; simpl; intros Hnotin.
  - now rewrite Nat.eqb_refl.
  - destruct (Nat.eqb (uid c) (uid a)) eqn:E.
    + apply Nat.eqb_eq in E. tauto.
    + rewrite IH by tauto. reflexivity.
Qed.

Lemma remove_each_after_prefix (pre : list tree_node) (s : new_section)
    (after : list tree_node) :
  NoDup (map uid after) ->
  (forall a, In a after -> ~ In (uid a) (map uid pre)) ->
  remove_each after (map Kept pre ++ NewSection s :: map Kept after)
  = Some (map Kept pre ++ [NewSection s]).
Proof.
  induction after as [|a r IH]; simpl; intros Hnodup Hpre; [reflexivity|].
  inversion Hnodup as [|? ? Hnotin Hr]; subst.
  rewrite remove_after_prefix by (apply Hpre; now left).
  apply IH; [exact Hr|]. intros b Hb. apply Hpre. now right.
Qed.

Lemma firstn_prefix {A} (l1 l2 : list A) : firstn (List.length l1) (l1 ++ l2) = l1.
Proof. induction l1 as [|x r IH]; simpl; [now destruct l2|now rewrite IH]. Qed.

Lemma skipn_prefix {A} (l1 l2 : list A) (x : A) :
  skipn (List.length l1 + 1) (l1 ++ x :: l2) = l2.
Proof. induction l1 as [|y r IH]; simpl; [reflexivity|exact IH]. Qed.

Lemma NoDup_app_disjoint {A} (l1 l2 : list A) (x : A) :
  NoDup (l1 ++ l2) -> In x l1 -> ~ In x l2.
Proof.
  induction l1 as [|y r IH]; simpl; intros Hnodup Hin; [contradiction|].
  inversion Hnodup as [|? ? Hnotin Hr]; subst.
  destruct Hin as [-> | Hin]; [|now apply IH].
  intros Hx. apply Hnotin. apply in_app_iff. now right.
Qed.

End ConvertFacts.

Lemma convert_node_eq (url : Type) (gh_link_get_url : string -> url)
    (env_docname : string)
    (before after : list ConvertCodeSampleNode.tree_node)
    (node_uid : nat) (node : CodeSampleNode)
    (description : container) (others : list container) :
  NoDup (map ConvertCodeSampleNode.uid
           (before
            ++ ConvertCodeSampleNode.mk_tree_node node_uid
                 (ConvertCodeSampleNode.CodeSample node) :: after)) ->
  csn_children node = description :: others ->
  ConvertCodeSampleNode.convert_node gh_link_get_url env_docname
    (Some (before
           ++ ConvertCodeSampleNode.mk_tree_node node_uid
                (ConvertCodeSampleNode.CodeSample node) :: after))
    node_uid node
  = ConvertCodeSampleNode.Converted
      (map ConvertCodeSampleNode.Kept before
       ++ [ConvertCodeSampleNode.NewSection
             (ConvertCodeSampleNode.mk_new_section [csn_id node] (csn_name node) after)])
      [ConvertCodeSampleNode.meta url "description" (container_astext description);
       ConvertCodeSampleNode.json_ld (csn_name node) (container_astext description)
         "full" (gh_link_get_url env_docname)].
Proof.
  intros Hnodup Hchildren.
  rewrite map_app in Hnodup. cbn [map ConvertCodeSampleNode.uid] in Hnodup.
  pose proof (NoDup_remove_2 _ _ _ Hnodup) as Hnode.
  pose proof (NoDup_remove_1 _ _ _ Hnodup) as Hrest.
  rewrite in_app_iff in Hnode.
  unfold ConvertCodeSampleNode.convert_node.
  assert (Hindex : ConvertCodeSampleNode.index
                     (before
                      ++ ConvertCodeSampleNode.mk_tree_node node_uid
                           (ConvertCodeSampleNode.CodeSample node) :: after)
                     node_uid
                   = Some (List.length before)).
  { apply (index_after_prefix before after
             (ConvertCodeSampleNode.mk_tree_node node_uid
                (ConvertCodeSampleNode.CodeSample node))).
    cbn. tauto. }
  rewrite Hindex, firstn_prefix, skipn_prefix.
  rewrite remove_each_after_prefix.
  - now rewrite Hchildren.
  - now apply NoDup_app_remove_l in Hrest.
  - intros a Ha Hin.
    apply (NoDup_app_disjoint _ _ _ Hrest Hin). now apply in_map.
Qed.

(** X24. [convert_node] on a code-sample node whose parent holds distinct
    nodes: the nodes before it stay where they are, the node is replaced
    by a section with the sample's id as id and its name as title, every
    node after it is moved under that section in order, and a [meta]
    description and the JSON-LD data, both with the text of the
    description, are appended to the document.  A node without parent is
    left alone. *)
Theorem convert_node_moves_following_siblings (url : Type) (gh_link_get_url : string -> url)
    (env_docname : string)
    (before after : list ConvertCodeSampleNode.tree_node)
    (node_uid : nat) (node : CodeSampleNode)
    (description : container) (others : list container) :
  NoDup (map ConvertCodeSampleNode.uid
           (before
            ++ ConvertCodeSampleNode.mk_tree_node node_uid
                 (ConvertCodeSampleNode.CodeSample node) :: after)) ->
  csn_children node = description :: others ->
  ConvertCodeSampleNode.convert_node gh_link_get_url env_docname
    (Some (before
           ++ ConvertCodeSampleNode.mk_tree_node node_uid
                (ConvertCodeSampleNode.CodeSample node) :: after))
    node_uid node
  = ConvertCodeSampleNode.Converted
      (map ConvertCodeSampleNode.Kept before
       ++ [ConvertCodeSampleNode.NewSection
             (ConvertCodeSampleNode.mk_new_section [csn_id node] (csn_name node) after)])
      [ConvertCodeSampleNode.meta url "description" (container_astext description);
       ConvertCodeSampleNode.json_ld (csn_name node) (container_astext description)
         "full" (gh_link_get_url env_docname)]
  /\ ConvertCodeSampleNode.convert_node gh_link_get_url env_docname None node_uid node
     = ConvertCodeSampleNode.NoParent url.
Proof.
  intros Hnodup Hchildren. split; [|reflexivity].
  now apply convert_node_eq with (others := others).
Qed.

Lemma convert_node_witness :
  let node := mk_CodeSampleNode "blinky" "Blinky" [cs_description blinky] in
  let intro := ConvertCodeSampleNode.mk_tree_node 1 (ConvertCodeSampleNode.Element "Intro") in
  let this := ConvertCodeSampleNode.mk_tree_node 2 (ConvertCodeSampleNode.CodeSample node) in
  let build := ConvertCodeSampleNode.mk_tree_node 3 (ConvertCodeSampleNode.Element "Building") in
  let run := ConvertCodeSampleNode.mk_tree_node 4 (ConvertCodeSampleNode.Element "Running") in
  NoDup (map ConvertCodeSampleNode.uid ([intro] ++ this :: [build; run]))
  /\ csn_children node = cs_description blinky :: []
  /\ ConvertCodeSampleNode.convert_node (fun d => ("https://example.org/" ++ d)%string)
       "samples/basic/blinky" (Some [intro; this; build; run]) 2 node
     = ConvertCodeSampleNode.Converted
         [ConvertCodeSampleNode.Kept intro;
          ConvertCodeSampleNode.NewSection
            (ConvertCodeSampleNode.mk_new_section ["blinky"] "Blinky" [build; run])]
         [ConvertCodeSampleNode.meta string "description"
            "Blink an LED forever using the GPIO API.";
          ConvertCodeSampleNode.json_ld "Blinky" "Blink an LED forever using the GPIO API."
            "full" "https://example.org/samples/basic/blinky"].
Proof.
  cbv zeta.
  assert (Hnodup : NoDup (map ConvertCodeSampleNode.uid
            ([ConvertCodeSampleNode.mk_tree_node 1 (ConvertCodeSampleNode.Element "Intro")]
             ++ ConvertCodeSampleNode.mk_tree_node 2
                  (ConvertCodeSampleNode.CodeSample
                     (mk_CodeSampleNode "blinky" "Blinky" [cs_description blinky]))
             :: [ConvertCodeSampleNode.mk_tree_node 3 (ConvertCodeSampleNode.Element "Building");
                 ConvertCodeSampleNode.mk_tree_node 4 (ConvertCodeSampleNode.Element "Running")]))).
  { cbn. repeat (constructor; [cbn; intuition discriminate|]). constructor. }
  split; [exact Hnodup|]. split; [reflexivity|].
  exact (proj1 (@convert_node_moves_following_siblings string
                  (fun d => ("https://example.org/" ++ d)%string) "samples/basic/blinky"
                  [ConvertCodeSampleNode.mk_tree_node 1 (ConvertCodeSampleNode.Element "Intro")]
                  [ConvertCodeSampleNode.mk_tree_node 3 (ConvertCodeSampleNode.Element "Building");
                   ConvertCodeSampleNode.mk_tree_node 4 (ConvertCodeSampleNode.Element "Running")]
                  2 (mk_CodeSampleNode "blinky" "Blinky" [cs_description blinky])
                  (cs_description blinky) [] Hnodup eq_refl)).
Defined.

(** X25. The node returned by the [code-sample] directive always converts:
    it has the declared id, the declared name, or the id when no name was
    given, and one child, the description node; among distinct siblings
    it becomes a section with that id and that title, and the [meta]
    description and the JSON-LD data appended to the document carry the
    text of that description node. *)
Theorem directive_node_converts (url : Type) (gh_link_get_url : string -> url)
    (self : Directive) (env : BuildEnvironment) (id : string) (rest : list string)
    (before after : list ConvertCodeSampleNode.tree_node) (node_uid : nat) :
  arguments self = id :: rest ->
  exists node description,
    fst (CodeSampleDirective.run self env) = Ok [node]
    /\ csn_id node = id
    /\ csn_name node = get_default (options self) "name" id
    /\ csn_children node = [description]
    /\ (NoDup (map ConvertCodeSampleNode.uid
                 (before
                  ++ ConvertCodeSampleNode.mk_tree_node node_uid
                       (ConvertCodeSampleNode.CodeSample node) :: after)) ->
        ConvertCodeSampleNode.convert_node gh_link_get_url (docname env)
          (Some (before
                 ++ ConvertCodeSampleNode.mk_tree_node node_uid
                      (ConvertCodeSampleNode.CodeSample node) :: after))
          node_uid node
        = ConvertCodeSampleNode.Converted
            (map ConvertCodeSampleNode.Kept before
             ++ [ConvertCodeSampleNode.NewSection
                   (ConvertCodeSampleNode.mk_new_section [id]
                      (get_default (options self) "name" id) after)])
            [ConvertCodeSampleNode.meta url "description" (container_astext description);
             ConvertCodeSampleNode.json_ld (get_default (options self) "name" id)
               (container_astext description) "full"
               (gh_link_get_url (docname env))]).
Proof.
  intros Hargs. rewrite (CodeSampleDirective_run_eq self env Hargs).
  cbn [fst cs_name cs_description]. do 2 eexists. split; [reflexivity|].
  cbn [csn_id csn_name csn_children].
  split; [reflexivity|]. split; [reflexivity|]. split; [reflexivity|].
  intros Hnodup.
  rewrite (@convert_node_eq url gh_link_get_url (docname env) before after node_uid _
             _ [] Hnodup eq_refl).
  reflexivity.
Qed.

Lemma directive_node_converts_witness :
  arguments redeclare_blinky = "blinky" :: []
  /\ exists node description,
       fst (CodeSampleDirective.run redeclare_blinky
              (env_at "samples/other/blinky" shard_a)) = Ok [node]
       /\ csn_children node = [description]
       /\ ConvertCodeSampleNode.convert_node (fun d => ("https://example.org/" ++ d)%string)
            "samples/other/blinky"
            (Some ([] ++ ConvertCodeSampleNode.mk_tree_node 0
                           (ConvertCodeSampleNode.CodeSample node)
                         :: [ConvertCodeSampleNode.mk_tree_node 1
                               (ConvertCodeSampleNode.Element "Building")]))
            0 node
          = ConvertCodeSampleNode.Converted
              [ConvertCodeSampleNode.NewSection
                 (ConvertCodeSampleNode.mk_new_section ["blinky"] "blinky"
                    [ConvertCodeSampleNode.mk_tree_node 1
                       (ConvertCodeSampleNode.Element "Building")])]
              [ConvertCodeSampleNode.meta string "description"
                 (container_astext description);
               ConvertCodeSampleNode.json_ld "blinky" (container_astext description) "full"
                 "https://example.org/samples/other/blinky"].
Proof.
  split; [reflexivity|].
  destruct (@directive_node_converts string (fun d => ("https://example.org/" ++ d)%string)
              redeclare_blinky (env_at "samples/other/blinky" shard_a) "blinky" []
              [] [ConvertCodeSampleNode.mk_tree_node 1
                    (ConvertCodeSampleNode.Element "Building")] 0 eq_refl)
    as (node & description & Hrun & _ & _ & Hchild & Hconv).
  exists node, description. split; [exact Hrun|]. split; [exact Hchild|].
  apply Hconv. cbn. repeat (constructor; [cbn; intuition discriminate|]). constructor.
Defined.
